(** * The data stream client (datastreamer/streamclient.go)

    A shallow embedding of the TCP client of the data streamer: the framed
    write helpers, the command engine [execCommand], the connection manager
    [connectServer], the packet dispatcher [readEntries] and the streaming
    consumer [getStreaming].

    Every goroutine is embedded as a sequential program over the client
    record.  A Go channel is the FIFO list of the values it holds; receiving
    from an empty channel, or sending to a full one, suspends the goroutine
    ([Blocked]).  A run-time panic is [Panicked].  The loops that never end in
    Go are bounded by the finite script of the environment they are run on
    ([Unfinished] when the script is used up). *)

From Stdlib Require Import String ZArith List Bool Lia.
Import ListNotations.
Open Scope Z_scope.

(** ** Machine integers and encoding/binary *)

Definition byte := Z.

(** uint64 and uint32 arithmetic wraps around. *)
Definition wrap64 (v : Z) : Z := v mod 2 ^ 64.
Definition wrap32 (v : Z) : Z := v mod 2 ^ 32.

(** The conversion [byte(v)]. *)
Definition to_byte (v : Z) : byte := Z.land v 255.

(** [binary.BigEndian.PutUint64] on a fresh 8-byte buffer. *)
Definition PutUint64 (v : Z) : list byte :=
  [ to_byte (Z.shiftr v 56); to_byte (Z.shiftr v 48);
    to_byte (Z.shiftr v 40); to_byte (Z.shiftr v 32);
    to_byte (Z.shiftr v 24); to_byte (Z.shiftr v 16);
    to_byte (Z.shiftr v 8);  to_byte v ].

(** [binary.BigEndian.PutUint32] on a fresh 4-byte buffer. *)
Definition PutUint32 (v : Z) : list byte :=
  [ to_byte (Z.shiftr v 24); to_byte (Z.shiftr v 16);
    to_byte (Z.shiftr v 8);  to_byte v ].

(** [binary.BigEndian.Uint32]: defined on a slice of at least four bytes. *)
Definition Uint32 (b : list byte) : Z :=
  match b with
  | b0 :: b1 :: b2 :: b3 :: _ =>
      Z.lor (Z.lor (Z.lor b3 (Z.shiftl b2 8)) (Z.shiftl b1 16)) (Z.shiftl b0 24)
  | _ => 0
  end.

(** [binary.BigEndian.Uint64], the decoder a peer applies to an 8-byte field. *)
Definition Uint64 (b : list byte) : Z :=
  match b with
  | b0 :: b1 :: b2 :: b3 :: b4 :: b5 :: b6 :: b7 :: _ =>
      Z.lor (Z.lor (Z.lor (Z.lor (Z.lor (Z.lor (Z.lor
        b7 (Z.shiftl b6 8)) (Z.shiftl b5 16)) (Z.shiftl b4 24))
        (Z.shiftl b3 32)) (Z.shiftl b2 40)) (Z.shiftl b1 48)) (Z.shiftl b0 56)
  | _ => 0
  end.

(** ** Errors

    The sentinel errors of the package are declared outside this file (each
    one a distinct [errors.New] value); the remaining constructors are the
    errors of the io and net packages and whatever a callback or a decoder
    may return. *)
Inductive error : Type :=
| ErrExecCommandNotAllowed
| ErrInvalidCommand
| ErrResultCommandError
| ErrEntryNotFound
| ErrBookmarkNotFound
| ErrNilConnection
| ErrReadingDataEntry
| ErrReadingResultEntry
| ErrGettingHeaderInfo
| EOF
| ErrUnexpectedEOF
| ErrClosed
| OtherError (code : nat).

(** ** The connection (net.Conn)

    A connection carries the bytes the server will still send ([incoming]),
    the bytes the client has put on the line ([wire]) and a script of what
    the next calls of Write do; when the script is used up every further
    Write succeeds.  [peerGone] tells what a read finds behind the incoming
    bytes: the end of the stream when the server has closed its side,
    silence when it has not (the file sets no read deadline, so such a read
    waits). *)
Inductive WriteOutcome : Type :=
| WriteOk
| WriteErr (sent : nat) (e : error).

Record Conn : Type := mkConn {
  localAddr : string;
  remoteAddr : string;
  incoming : list byte;
  wire : list byte;
  writes : list WriteOutcome;
  closed : bool;
  peerGone : bool
}.

(** [conn.Write(buf)]: the error result only, the byte count is dropped by
    every caller in this file. *)
Definition conn_Write (buf : list byte) (k : Conn) : Conn * option error :=
  if closed k then (k, Some ErrClosed)
  else match writes k with
       | [] =>
           (mkConn (localAddr k) (remoteAddr k) (incoming k)
                   (wire k ++ buf) [] false (peerGone k), None)
       | WriteOk :: ws =>
           (mkConn (localAddr k) (remoteAddr k) (incoming k)
                   (wire k ++ buf) ws false (peerGone k), None)
       | WriteErr n e :: ws =>
           (mkConn (localAddr k) (remoteAddr k) (incoming k)
                   (wire k ++ firstn n buf) ws false (peerGone k), Some e)
       end.

(** [conn.Close()]. *)
Definition conn_Close (k : Conn) : Conn :=
  mkConn (localAddr k) (remoteAddr k) (incoming k) (wire k) (writes k) true
         (peerGone k).

(** What a read comes to: it returns, or it waits for bytes that are not
    there yet. *)
Inductive ReadOutcome : Type :=
| ReadDone (k : Conn) (buf : list byte) (err : option error)
| ReadWaits (k : Conn).

(** [io.ReadFull(conn, buffer)] for a buffer of [n] bytes: all [n] bytes or
    an error.  A buffer of length zero is filled without touching the
    connection.  With fewer than [n] bytes on the line the read ends with
    io.EOF (no byte read) or io.ErrUnexpectedEOF when the server has closed
    its side, and waits for the rest when it has not. *)
Definition conn_ReadFull (n : nat) (k : Conn) : ReadOutcome :=
  match n with
  | O => ReadDone k [] None
  | _ =>
      if closed k then ReadDone k [] (Some ErrClosed)
      else if (n <=? length (incoming k))%nat
      then ReadDone
             (mkConn (localAddr k) (remoteAddr k) (skipn n (incoming k))
                     (wire k) (writes k) false (peerGone k))
             (firstn n (incoming k)) None
      else if peerGone k
      then ReadDone
             (mkConn (localAddr k) (remoteAddr k) [] (wire k) (writes k)
                     false true)
             (incoming k)
             (Some (match incoming k with [] => EOF | _ => ErrUnexpectedEOF end))
      else ReadWaits
             (mkConn (localAddr k) (remoteAddr k) [] (wire k) (writes k)
                     false false)
  end.

(** A method called on a nil interface value panics: [conn.RemoteAddr()]
    has a value only on a connection that is there. *)
Definition RemoteAddr (conn : option Conn) : option string :=
  option_map remoteAddr conn.

(** ** Results of a run *)

Inductive Res (S A : Type) : Type :=
| Done (a : A) (s : S)
| Blocked (s : S)
| Panicked (s : S)
| Unfinished (s : S).
Arguments Done {S A} a s.
Arguments Blocked {S A} s.
Arguments Panicked {S A} s.
Arguments Unfinished {S A} s.

(** ** Framed writes *)

(** [conn.Write] through the interface value, or ErrNilConnection. *)
Definition write_or_nil (buffer : list byte) (conn : option Conn)
  : option Conn * option error :=
  match conn with
  | Some k => let (k', err) := conn_Write buffer k in (Some k', err)
  | None => (None, Some ErrNilConnection)
  end.

(** The tail shared by the three helpers: on an error the log line is built
    from [conn.RemoteAddr().String()] before the error is returned. *)
Definition report_write (conn : option Conn) (err : option error)
  : Res (option Conn) (option error) :=
  match err with
  | Some e =>
      match RemoteAddr conn with
      | Some _ => Done (Some e) conn
      | None => Panicked conn
      end
  | None => Done None conn
  end.

(** writeFullUint64 writes to connection a complete uint64 *)
Definition writeFullUint64 (value : Z) (conn : option Conn)
  : Res (option Conn) (option error) :=
  let buffer := PutUint64 value in
  let (conn', err) := write_or_nil buffer conn in
  report_write conn' err.

(** writeFullUint32 writes to connection a complete uint32 *)
Definition writeFullUint32 (value : Z) (conn : option Conn)
  : Res (option Conn) (option error) :=
  let buffer := PutUint32 value in
  let (conn', err) := write_or_nil buffer conn in
  report_write conn' err.

(** writeFullBytes writes to connection the complete buffer *)
Definition writeFullBytes (buffer : list byte) (conn : option Conn)
  : Res (option Conn) (option error) :=
  let (conn', err) := write_or_nil buffer conn in
  report_write conn' err.

(** ** Entries

    The three entry structs are declared outside this file; the records
    carry the fields this file reads.  The zero records are Go's
    [HeaderEntry{}], [FileEntry{}] and [ResultEntry{}]. *)
Record HeaderEntry : Type := mkHeader {
  TotalEntries : Z;
  TotalLength : Z;
  Version : Z;
  SystemID : Z
}.

Record FileEntry : Type := mkEntry {
  Number : Z;
  Length : Z;
  Type_ : Z;
  Data : list byte
}.

Record ResultEntry : Type := mkResult {
  errorNum : Z;
  errorStr : list byte
}.

Definition zeroHeader : HeaderEntry := mkHeader 0 0 0 0.
Definition zeroEntry : FileEntry := mkEntry 0 0 0 [].
Definition zeroResult : ResultEntry := mkResult 0 [].

(** ** Declarations of the package this file relies on

    The command opcodes, the packet type tags, the sizes of the fixed parts
    and the codec are declared in other files of the package.  They are
    taken as parameters.  The case constants of one Go switch are pairwise
    distinct (the compiler refuses a duplicate case), and the fixed part of
    a data or result entry holds the packet type and the 4-byte length that
    the readers slice out of it. *)
Fixpoint distinct (l : list Z) : bool :=
  match l with
  | [] => true
  | x :: r => negb (existsb (Z.eqb x) r) && distinct r
  end.

Class Decls : Type := mkDecls {
  CmdStart : Z;
  CmdStop : Z;
  CmdHeader : Z;
  CmdStartBookmark : Z;
  CmdEntry : Z;
  CmdBookmark : Z;
  CmdErrOK : Z;
  EntryTypeNotFound : Z;
  PtResult : byte;
  PtDataRsp : byte;
  PtHeader : byte;
  PtData : byte;
  FixedSizeFileEntry : Z;
  FixedSizeResultEntry : Z;
  headerSize : Z;
  DecodeBinaryToFileEntry : list byte -> FileEntry * option error;
  decodeBinaryToHeaderEntry : list byte -> HeaderEntry * option error;
  DecodeBinaryToResultEntry : list byte -> ResultEntry * option error;
  commands_distinct :
    distinct [CmdStart; CmdStartBookmark; CmdStop; CmdHeader; CmdEntry;
              CmdBookmark] = true;
  packets_distinct :
    distinct [PtResult; PtDataRsp; PtHeader; PtData] = true;
  fixed_sizes :
    (5 <=? FixedSizeFileEntry) && (5 <=? FixedSizeResultEntry)
    && (1 <=? headerSize) = true
}.

(** Capacities of the channels and the reconnection delay (nanoseconds). *)
Definition resultsBuffer : nat := 32.
Definition headersBuffer : nat := 32.
Definition entriesBuffer : nat := 128.
Definition entryRspBuffer : nat := 32.
Definition defaultTimeout : Z := 5 * 1000000000.

(** ** The client *)

(** The relay server is an opaque handle for this file. *)
Definition StreamServer : Type := nat.

(** A function value of type ProcessEntryFunc is a reference: the default
    callback of this file, or a callback registered by the user. *)
Inductive FuncRef : Type :=
| FnPrintReceivedEntry
| FnUser (id : nat).

Record StreamClient : Type := mkClient {
  server : string;
  streamType : Z;
  conn : option Conn;
  ID : string;
  started : bool;
  connected : bool;
  streaming : bool;
  fromStream : Z;
  totalEntries : Z;
  results : list ResultEntry;
  headers : list HeaderEntry;
  entries : list FileEntry;
  entryRsp : list FileEntry;
  nextEntry : Z;
  processEntry : FuncRef;
  relayServer : option StreamServer
}.

Definition set_conn (v : option Conn) (c : StreamClient) : StreamClient :=
  mkClient (server c) (streamType c) v (ID c) (started c) (connected c)
    (streaming c) (fromStream c) (totalEntries c) (results c) (headers c)
    (entries c) (entryRsp c) (nextEntry c) (processEntry c) (relayServer c).

Definition set_ID (v : string) (c : StreamClient) : StreamClient :=
  mkClient (server c) (streamType c) (conn c) v (started c) (connected c)
    (streaming c) (fromStream c) (totalEntries c) (results c) (headers c)
    (entries c) (entryRsp c) (nextEntry c) (processEntry c) (relayServer c).

Definition set_started (v : bool) (c : StreamClient) : StreamClient :=
  mkClient (server c) (streamType c) (conn c) (ID c) v (connected c)
    (streaming c) (fromStream c) (totalEntries c) (results c) (headers c)
    (entries c) (entryRsp c) (nextEntry c) (processEntry c) (relayServer c).

Definition set_connected (v : bool) (c : StreamClient) : StreamClient :=
  mkClient (server c) (streamType c) (conn c) (ID c) (started c) v
    (streaming c) (fromStream c) (totalEntries c) (results c) (headers c)
    (entries c) (entryRsp c) (nextEntry c) (processEntry c) (relayServer c).

Definition set_streaming (v : bool) (c : StreamClient) : StreamClient :=
  mkClient (server c) (streamType c) (conn c) (ID c) (started c) (connected c)
    v (fromStream c) (totalEntries c) (results c) (headers c)
    (entries c) (entryRsp c) (nextEntry c) (processEntry c) (relayServer c).

Definition set_fromStream (v : Z) (c : StreamClient) : StreamClient :=
  mkClient (server c) (streamType c) (conn c) (ID c) (started c) (connected c)
    (streaming c) v (totalEntries c) (results c) (headers c)
    (entries c) (entryRsp c) (nextEntry c) (processEntry c) (relayServer c).

Definition set_totalEntries (v : Z) (c : StreamClient) : StreamClient :=
  mkClient (server c) (streamType c) (conn c) (ID c) (started c) (connected c)
    (streaming c) (fromStream c) v (results c) (headers c)
    (entries c) (entryRsp c) (nextEntry c) (processEntry c) (relayServer c).

Definition set_results (v : list ResultEntry) (c : StreamClient) : StreamClient :=
  mkClient (server c) (streamType c) (conn c) (ID c) (started c) (connected c)
    (streaming c) (fromStream c) (totalEntries c) v (headers c)
    (entries c) (entryRsp c) (nextEntry c) (processEntry c) (relayServer c).

Definition set_headers (v : list HeaderEntry) (c : StreamClient) : StreamClient :=
  mkClient (server c) (streamType c) (conn c) (ID c) (started c) (connected c)
    (streaming c) (fromStream c) (totalEntries c) (results c) v
    (entries c) (entryRsp c) (nextEntry c) (processEntry c) (relayServer c).

Definition set_entries (v : list FileEntry) (c : StreamClient) : StreamClient :=
  mkClient (server c) (streamType c) (conn c) (ID c) (started c) (connected c)
    (streaming c) (fromStream c) (totalEntries c) (results c) (headers c)
    v (entryRsp c) (nextEntry c) (processEntry c) (relayServer c).

Definition set_entryRsp (v : list FileEntry) (c : StreamClient) : StreamClient :=
  mkClient (server c) (streamType c) (conn c) (ID c) (started c) (connected c)
    (streaming c) (fromStream c) (totalEntries c) (results c) (headers c)
    (entries c) v (nextEntry c) (processEntry c) (relayServer c).

Definition set_nextEntry (v : Z) (c : StreamClient) : StreamClient :=
  mkClient (server c) (streamType c) (conn c) (ID c) (started c) (connected c)
    (streaming c) (fromStream c) (totalEntries c) (results c) (headers c)
    (entries c) (entryRsp c) v (processEntry c) (relayServer c).

Definition set_processEntry (f : FuncRef) (s : option StreamServer)
    (c : StreamClient) : StreamClient :=
  mkClient (server c) (streamType c) (conn c) (ID c) (started c) (connected c)
    (streaming c) (fromStream c) (totalEntries c) (results c) (headers c)
    (entries c) (entryRsp c) (nextEntry c) f s.

(** The type of the callback: it is handed the entry, the client (which it
    may change through the pointer) and the relay server, and returns an
    error or nil. *)
Definition ProcessEntryFunc : Type :=
  FileEntry -> StreamClient -> option StreamServer -> StreamClient * option error.

(** PrintReceivedEntry prints received entry (default callback function) *)
Definition PrintReceivedEntry : ProcessEntryFunc :=
  fun e c s => (c, None).

(** ** What the goroutines do to the outside *)
Inductive Event : Type :=
| EvDial (addr : string)
| EvClose
| EvSleep (d : Z)
| EvProcess (e : FileEntry) (c : StreamClient) (s : option StreamServer)
            (r : option error).

Record World : Type := mkWorld {
  client : StreamClient;
  events : list Event
}.

Definition M (A : Type) : Type := World -> Res World A.

Definition ret {A} (a : A) : M A := fun w => Done a w.

Definition bind {A B} (m : M A) (f : A -> M B) : M B :=
  fun w =>
    match m w with
    | Done a w' => f a w'
    | Blocked w' => Blocked w'
    | Panicked w' => Panicked w'
    | Unfinished w' => Unfinished w'
    end.

Declare Scope go_scope.
Delimit Scope go_scope with go.
Notation "x <- m ;; k" := (bind m (fun x => k))
  (at level 61, m at next level, right associativity) : go_scope.
Notation "m ;;; k" := (bind m (fun _ => k))
  (at level 61, right associativity) : go_scope.
Open Scope go_scope.

Definition getClient : M StreamClient := fun w => Done (client w) w.

Definition modifyClient (f : StreamClient -> StreamClient) : M unit :=
  fun w => Done tt (mkWorld (f (client w)) (events w)).

Definition emit (ev : Event) : M unit :=
  fun w => Done tt (mkWorld (client w) (events w ++ [ev])).

(** [time.Sleep(d)] *)
Definition Sleep (d : Z) : M unit := emit (EvSleep d).

(** A write helper run on the connection of the client. *)
Definition onConn (f : option Conn -> Res (option Conn) (option error))
  : M (option error) :=
  fun w =>
    match f (conn (client w)) with
    | Done r k => Done r (mkWorld (set_conn k (client w)) (events w))
    | Blocked k => Blocked (mkWorld (set_conn k (client w)) (events w))
    | Panicked k => Panicked (mkWorld (set_conn k (client w)) (events w))
    | Unfinished k => Unfinished (mkWorld (set_conn k (client w)) (events w))
    end.

(** Receiving from and sending to the four channels. *)
Definition recv {A} (get : StreamClient -> list A)
    (set : list A -> StreamClient -> StreamClient) : M A :=
  fun w =>
    match get (client w) with
    | [] => Blocked w
    | x :: q => Done x (mkWorld (set q (client w)) (events w))
    end.

Definition send {A} (cap : nat) (get : StreamClient -> list A)
    (set : list A -> StreamClient -> StreamClient) (x : A) : M unit :=
  fun w =>
    if (length (get (client w)) <? cap)%nat
    then Done tt (mkWorld (set (get (client w) ++ [x]) (client w)) (events w))
    else Blocked w.

(** NewClient creates a new data stream client *)
Definition NewClient (srv : string) (st : Z) : StreamClient :=
  set_processEntry FnPrintReceivedEntry None
    (mkClient srv st None EmptyString false false false 0 0
       [] [] [] [] 0 FnPrintReceivedEntry None).

(** The world a result carries. *)
Definition final {A} (r : Res World A) : World :=
  match r with
  | Done _ w => w
  | Blocked w => w
  | Panicked w => w
  | Unfinished w => w
  end.

(** The world with the connection of the client replaced. *)
Definition with_conn (k : Conn) (w : World) : World :=
  mkWorld (set_conn (Some k) (client w)) (events w).

(** ** The frame of a command, as the protocol describes it

    The buffers a command puts on the line, one per Write: the opcode and
    the stream type as 8-byte big-endian words, then the parameters of the
    command. *)
Inductive Params : Type :=
| NoParams
| EntryIndex (fromEntry : Z)
| BookmarkBytes (fromBookmark : list byte).

Definition paramWrites (p : Params) : list (list byte) :=
  match p with
  | NoParams => []
  | EntryIndex n => [PutUint64 n]
  | BookmarkBytes b => [PutUint32 (wrap32 (Z.of_nat (length b))); b]
  end.

Definition commandWrites (cmd st : Z) (p : Params) : list (list byte) :=
  PutUint64 cmd :: PutUint64 st :: paramWrites p.

(** Writes in a row on one connection, up to the first one that fails. *)
Fixpoint writeAll (bufs : list (list byte)) (k : Conn) : Conn * option error :=
  match bufs with
  | [] => (k, None)
  | b :: bufs' =>
      match conn_Write b k with
      | (k', Some e) => (k', Some e)
      | (k', None) => writeAll bufs' k'
      end
  end.

(** The next [n] calls of Write all succeed. *)
Fixpoint writes_ok (n : nat) (ws : list WriteOutcome) : bool :=
  match n, ws with
  | O, _ => true
  | S _, [] => true
  | S n', WriteOk :: ws' => writes_ok n' ws'
  | S _, WriteErr _ _ :: _ => false
  end.

(** The connection after the buffers [bufs] went out in full. *)
Definition sent (bufs : list (list byte)) (k : Conn) : Conn :=
  mkConn (localAddr k) (remoteAddr k) (incoming k)
         (wire k ++ concat bufs) (skipn (length bufs) (writes k)) false
         (peerGone k).

(** The connection after the write number [j] of [bufs] broke off after [n]
    bytes. *)
Definition cut (bufs : list (list byte)) (j n : nat) (k : Conn) : Conn :=
  mkConn (localAddr k) (remoteAddr k) (incoming k)
         (wire k ++ concat (firstn j bufs) ++ firstn n (nth j bufs []))
         (skipn (S j) (writes k)) false (peerGone k).

(** A started client on an open connection whose next writes succeed (no
    command makes more than four). *)
Definition can_send (w : World) : bool :=
  started (client w) &&
  match conn (client w) with
  | Some k => negb (closed k) && writes_ok 4 (writes k)
  | None => false
  end.

(** ** Observations on a run of the consumer *)

(** The calls of the callback among the events. *)
Definition isProcess (ev : Event) : bool :=
  match ev with EvProcess _ _ _ _ => true | _ => false end.

(** The callback is handed the client with the cursor one past the entry,
    and the relay server of that client. *)
Definition cursorSet (ev : Event) : bool :=
  match ev with
  | EvProcess e c s _ =>
      (nextEntry c =? wrap64 (Number e + 1)) &&
      match s, relayServer c with
      | Some a, Some b => Nat.eqb a b
      | None, None => true
      | _, _ => false
      end
  | _ => false
  end.

(** The call returned nil. *)
Definition accepted (ev : Event) : bool :=
  match ev with EvProcess _ _ _ None => true | _ => false end.

(** The cursor as each call of the callback saw it. *)
Definition cursors (evs : list Event) : list Z :=
  flat_map (fun ev => match ev with
                      | EvProcess _ c _ _ => [nextEntry c]
                      | _ => []
                      end) evs.




(** ** A test bench

    One setting of the declarations (the opcodes 1 to 6, the packet tags
    and sizes of one version of the protocol, a codec for its layout), a
    line to a server, and two callbacks. *)
Module Bench.

Definition decodeFile (b : list byte) : FileEntry * option error :=
  (mkEntry (Uint64 (skipn 9 b)) (Uint32 (skipn 1 b)) (Uint32 (skipn 5 b))
           (skipn 17 b), None).

Definition decodeHeader (b : list byte) : HeaderEntry * option error :=
  (mkHeader (Uint64 (skipn 30 b)) (Uint64 (skipn 22 b)) (hd 0 (skipn 5 b))
            (Uint64 (skipn 6 b)), None).

Definition decodeResult (b : list byte) : ResultEntry * option error :=
  (mkResult (Uint32 (skipn 5 b)) (skipn 9 b), None).

Definition decls : Decls :=
  mkDecls 1 2 3 4 5 6 0 4294967295 255 254 1 2 17 9 38
          decodeFile decodeHeader decodeResult eq_refl eq_refl eq_refl.

Definition line (inc : list byte) (ws : list WriteOutcome) : Conn :=
  mkConn "10.0.0.2:40000" "10.0.0.1:6900" inc [] ws false false.

(** A client that has been started on a line. *)
Definition startedOn (k : Conn) : StreamClient :=
  set_started true
    (set_connected true
       (set_ID (localAddr k)
          (set_conn (Some k) (NewClient "10.0.0.1:6900" 1)))).

(** A callback that refuses the entry number 2, and nothing else. *)
Definition funcs (i : nat) : ProcessEntryFunc :=
  fun e c s =>
    if Number e =? 2 then (c, Some (OtherError 7)) else (c, None).

Definition entry (n : Z) : FileEntry := mkEntry n 17 1 [].

(** A result packet as the server sends it: tag, length 9, error number. *)
Definition resultPacket (code : Z) : list byte :=
  255 :: PutUint32 9 ++ PutUint32 code.

(** A client that has not been started. *)
Definition idle : World := mkWorld (NewClient "10.0.0.1:6900" 1) [].

(** A started client on the line [k]. *)
Definition ready (k : Conn) : World := mkWorld (startedOn k) [].

(** The same with one result waiting. *)
Definition answered (code : Z) (k : Conn) : World :=
  mkWorld (set_results [mkResult code []] (startedOn k)) [].

(** The same with one data response waiting. *)
Definition responded (e : FileEntry) (k : Conn) : World :=
  mkWorld (set_entryRsp [e] (startedOn k)) [].

(** A consumer with the callback [f], the cursor at [cur] and the
    entries [es] in its queue. *)
Definition consumer (f : FuncRef) (cur : Z) (es : list FileEntry) : World :=
  mkWorld (set_processEntry f None
             (set_nextEntry cur
                (set_entries es (NewClient "10.0.0.1:6900" 1)))) [].

(** A started client that was streaming, cursor at [cur], when its
    connection went down. *)
Definition dropped (cur : Z) : World :=
  mkWorld (set_nextEntry cur
             (set_streaming true
                (set_started true (NewClient "10.0.0.1:6900" 1)))) [].


End Bench.

(** A server the client dials answers each Dial with an error or with a
    fresh connection. *)
Inductive DialOutcome : Type :=
| DialErr (e : error)
| DialOk (k : Conn).

(** ** Worlds along a reconnection *)

(** The world after a Dial that gave the connection [k]. *)
Definition dialled (k : Conn) (w : World) : World :=
  mkWorld (set_ID (localAddr k)
             (set_connected true (set_conn (Some k) (client w))))
          (events w ++ [EvDial (server (client w))]).

(** The world after a Dial that failed and the wait that follows. *)
Definition undialled (w : World) : World :=
  mkWorld (set_conn None (client w))
          (events w ++ [EvDial (server (client w)); EvSleep defaultTimeout]).

(** The world after closeConnection. *)
Definition closedWorld (w : World) : World :=
  match conn (client w) with
  | Some k =>
      mkWorld (set_connected false (set_conn (Some (conn_Close k)) (client w)))
              (events w ++ [EvClose])
  | None => mkWorld (set_connected false (client w)) (events w)
  end.

(** The world after [time.Sleep(defaultTimeout)]. *)
Definition slept (w : World) : World :=
  mkWorld (client w) (events w ++ [EvSleep defaultTimeout]).

(** A dial outcome on which a resume goes through: an open connection
    whose next three writes succeed. *)
Definition sound (d : DialOutcome) : bool :=
  match d with
  | DialOk k => negb (closed k) && writes_ok 3 (writes k)
  | DialErr _ => false
  end.

(** The connection after [n] incoming bytes have been read. *)
Definition advance (n : nat) (k : Conn) : Conn :=
  mkConn (localAddr k) (remoteAddr k) (skipn n (incoming k)) (wire k)
         (writes k) (closed k) (peerGone k).

(** ** The accessors and the registration of the callback *)

(** GetFromStream returns streaming start entry number from the latest start
    command executed *)
Definition GetFromStream (c : StreamClient) : Z := fromStream c.

(** GetTotalEntries returns total entries number from the latest header
    command executed *)
Definition GetTotalEntries (c : StreamClient) : Z := totalEntries c.

(** IsStarted returns if the client is started *)
Definition IsStarted (c : StreamClient) : bool := started c.

(** setProcessEntryFunc sets the callback function to process entry with
    server parameter *)
Definition setProcessEntryFunc (f : FuncRef) (s : option StreamServer)
    (c : StreamClient) : StreamClient :=
  set_processEntry f s c.

(** SetProcessEntryFunc sets the callback function to process entry *)
Definition SetProcessEntryFunc (f : FuncRef) (c : StreamClient) : StreamClient :=
  setProcessEntryFunc f None c.

(** ResetProcessEntryFunc resets the callback function to the default one *)
Definition ResetProcessEntryFunc (c : StreamClient) : StreamClient :=
  setProcessEntryFunc FnPrintReceivedEntry (relayServer c) c.

(** ** Further observations *)

(** A Dial that failed. *)
Definition failed (d : DialOutcome) : bool :=
  match d with
  | DialErr _ => true
  | DialOk _ => false
  end.

(** What [n] failed attempts leave behind: a Dial and the wait, [n] times. *)
Fixpoint retryEvents (srv : string) (n : nat) : list Event :=
  match n with
  | O => []
  | S n' => EvDial srv :: EvSleep defaultTimeout :: retryEvents srv n'
  end.

(** The world after [n] failed attempts in a row. *)
Definition retried (n : nat) (w : World) : World :=
  mkWorld (match n with
           | O => client w
           | S _ => set_conn None (client w)
           end)
          (events w ++ retryEvents (server (client w)) n).

(** The entries handed to the callback, in the order of the calls. *)
Definition delivered (evs : list Event) : list FileEntry :=
  flat_map (fun ev => match ev with
                      | EvProcess e _ _ _ => [e]
                      | _ => []
                      end) evs.

(** The cursor after the entries [es] have gone through the consumer. *)
Definition cursorAfter (cur : Z) (es : list FileEntry) : Z :=
  last (map (fun e => wrap64 (Number e + 1)) es) cur.

(** The fields of the client that no command writes. *)
Definition sameSession (c c' : StreamClient) : Prop :=
  server c' = server c /\
  streamType c' = streamType c /\
  ID c' = ID c /\
  started c' = started c /\
  connected c' = connected c /\
  entries c' = entries c /\
  nextEntry c' = nextEntry c /\
  processEntry c' = processEntry c /\
  relayServer c' = relayServer c.

(** The fields of the client that the consumer with the default callback
    leaves alone: all but the queue of entries and the cursor. *)
Definition onlyConsumed (c c' : StreamClient) : Prop :=
  server c' = server c /\
  streamType c' = streamType c /\
  conn c' = conn c /\
  ID c' = ID c /\
  started c' = started c /\
  connected c' = connected c /\
  streaming c' = streaming c /\
  fromStream c' = fromStream c /\
  totalEntries c' = totalEntries c /\
  results c' = results c /\
  headers c' = headers c /\
  entryRsp c' = entryRsp c /\
  processEntry c' = processEntry c /\
  relayServer c' = relayServer c.

(** The four queues of the client. *)
Definition queues (c : StreamClient)
  : list ResultEntry * list HeaderEntry * list FileEntry * list FileEntry :=
  (results c, headers c, entries c, entryRsp c).


(** A record of the wire with a fixed part of [size] bytes (tag included):
    [fixed] is the fixed part after the tag, its first four bytes give the
    total length, and [aux] is the variable part that follows. *)
Definition framed (size : Z) (fixed aux : list byte) : bool :=
  (length fixed =? Z.to_nat (size - 1))%nat &&
  (size <=? Uint32 (firstn 4 fixed)) &&
  (length aux =? Z.to_nat (Uint32 (firstn 4 fixed) - size))%nat.

(** ** A second bench: a connected client reading from its line *)
Module Probe.

(** A data packet without its tag: length 18, type 1, number [n], one byte
    of payload. *)
Definition dataBody (n : Z) : list byte :=
  PutUint32 18 ++ PutUint32 1 ++ PutUint64 n ++ [42].

(** A header packet without its tag, for the header size 38 of the bench. *)
Definition headerBody (total : Z) : list byte :=
  PutUint32 38 ++ [3] ++ PutUint64 7 ++ PutUint64 1 ++ PutUint64 100
    ++ PutUint64 total.

(** A started, connected client on a line that still carries [inc]. *)
Definition reading (inc : list byte) : World :=
  Bench.ready (Bench.line inc []).

(** A started client that is streaming on the line [k], with the entries
    [es] waiting for the default callback. *)
Definition streamingOn (k : Conn) (es : list FileEntry) : World :=
  mkWorld (set_entries es (set_streaming true (Bench.startedOn k))) [].



(** The fixed part of [dataBody n] after the tag. *)
Definition dataFixed (n : Z) : list byte :=
  PutUint32 18 ++ PutUint32 1 ++ PutUint64 n.

(** A started client with two OK results waiting. *)
Definition twoAnswers : World :=
  mkWorld (set_results [mkResult 0 []; mkResult 0 []]
             (Bench.startedOn (Bench.line [] []))) [].

(** A client with a relay server and two entries in its queue. *)
Definition withRelay : StreamClient :=
  set_processEntry FnPrintReceivedEntry (Some 1%nat)
    (set_entries [Bench.entry 2; Bench.entry 3] (NewClient "10.0.0.1:6900" 1)).

(** A reading client whose queue of streaming entries is full. *)
Definition full : World :=
  mkWorld (set_entries (repeat (Bench.entry 0) 128)
             (Bench.startedOn (Bench.line (2 :: dataBody 9) []))) [].

(** The line of a [Bench.dropped 9] client after its resume has gone out,
    with a data packet and then the result [code] on their way in. *)
Definition resumedData (code : Z) : Conn :=
  mkConn "10.0.0.2:40000" "10.0.0.1:6900"
         (2 :: dataBody 9 ++ Bench.resultPacket code)
         (PutUint64 1 ++ PutUint64 1 ++ PutUint64 9) [] false false.

End Probe.

Section Client.

Context {D : Decls}.

(** The callbacks the user has registered, by reference. *)
Variable userFuncs : nat -> ProcessEntryFunc.

Definition callFunc (f : FuncRef) : ProcessEntryFunc :=
  match f with
  | FnPrintReceivedEntry => PrintReceivedEntry
  | FnUser i => userFuncs i
  end.

(** Modelled from the spec: the method IsACommand of Command is declared
    outside this file; the spec has the engine check that the command "is
    one of the six known commands". *)
Definition IsACommand (cmd : Z) : bool :=
  existsb (Z.eqb cmd)
    [CmdStart; CmdStop; CmdHeader; CmdStartBookmark; CmdEntry; CmdBookmark].

(** closeConnection closes connection to the server *)
Definition closeConnection : M unit :=
  c <- getClient ;;
  match conn c with
  | Some k => emit EvClose ;;; modifyClient (set_conn (Some (conn_Close k)))
  | None => ret tt
  end ;;;
  modifyClient (set_connected false).

(** getResult consumes a result entry *)
Definition getResult (cmd : Z) : M ResultEntry := recv results set_results.

(** getHeader consumes a header entry *)
Definition getHeader : M HeaderEntry := recv headers set_headers.

(** getEntry consumes a entry from commands response *)
Definition getEntry : M FileEntry := recv entryRsp set_entryRsp.

Definition CmdResult : Type := (HeaderEntry * FileEntry * option error)%type.

(** execCommand, "Send the command parameters": the first switch. *)
Definition sendParams (cmd fromEntry : Z) (fromBookmark : list byte)
  : M (option error) :=
  if cmd =? CmdStart then
    onConn (writeFullUint64 fromEntry)
  else if cmd =? CmdStartBookmark then
    err <- onConn (writeFullUint32 (wrap32 (Z.of_nat (length fromBookmark)))) ;;
    match err with
    | Some e => ret (Some e)
    | None => onConn (writeFullBytes fromBookmark)
    end
  else if cmd =? CmdEntry then
    onConn (writeFullUint64 fromEntry)
  else if cmd =? CmdBookmark then
    err <- onConn (writeFullUint32 (wrap32 (Z.of_nat (length fromBookmark)))) ;;
    match err with
    | Some e => ret (Some e)
    | None => onConn (writeFullBytes fromBookmark)
    end
  else ret None.

(** execCommand, "Get the data response and update streaming flag": the
    second switch and the final return. *)
Definition afterResult (cmd fromEntry : Z) : M CmdResult :=
  let header := zeroHeader in
  let entry := zeroEntry in
  if cmd =? CmdStart then
    modifyClient (set_streaming true) ;;;
    modifyClient (set_fromStream fromEntry) ;;;
    ret (header, entry, None)
  else if cmd =? CmdStartBookmark then
    modifyClient (set_streaming true) ;;;
    ret (header, entry, None)
  else if cmd =? CmdStop then
    modifyClient (set_streaming false) ;;;
    ret (header, entry, None)
  else if cmd =? CmdHeader then
    h <- getHeader ;;
    modifyClient (set_totalEntries (TotalEntries h)) ;;;
    ret (h, entry, None)
  else if cmd =? CmdEntry then
    e <- getEntry ;;
    if Type_ e =? EntryTypeNotFound
    then ret (header, entry, Some ErrEntryNotFound)
    else ret (header, e, None)
  else if cmd =? CmdBookmark then
    e <- getEntry ;;
    if Type_ e =? EntryTypeNotFound
    then ret (header, entry, Some ErrBookmarkNotFound)
    else ret (header, e, None)
  else ret (header, entry, None).

(** execCommand, "Get the command result", followed by the second switch. *)
Definition awaitResult (cmd : Z) (deferredResult : bool) (fromEntry : Z)
  : M CmdResult :=
  let header := zeroHeader in
  let entry := zeroEntry in
  failed <- (if deferredResult then ret false
             else r <- getResult cmd ;;
                  ret (negb (errorNum r =? CmdErrOK))) ;;
  if failed : bool then ret (header, entry, Some ErrResultCommandError)
  else afterResult cmd fromEntry.

(** execCommand executes a valid client TCP command with deferred command
    result possibility *)
Definition execCommand (cmd : Z) (deferredResult : bool)
    (fromEntry : Z) (fromBookmark : list byte) : M CmdResult :=
  let header := zeroHeader in
  let entry := zeroEntry in
  c <- getClient ;;
  if negb (started c) then ret (header, entry, Some ErrExecCommandNotAllowed)
  else if negb (IsACommand cmd) then ret (header, entry, Some ErrInvalidCommand)
  else
    err <- onConn (writeFullUint64 cmd) ;;
    match err with
    | Some e => ret (header, entry, Some e)
    | None =>
    err <- onConn (writeFullUint64 (streamType c)) ;;
    match err with
    | Some e => ret (header, entry, Some e)
    | None =>
    err <- sendParams cmd fromEntry fromBookmark ;;
    match err with
    | Some e => ret (header, entry, Some e)
    | None => awaitResult cmd deferredResult fromEntry
    end end end.

(** The parameters each command sends, as the protocol describes them. *)
Definition paramsOf (cmd fromEntry : Z) (fromBookmark : list byte) : Params :=
  if (cmd =? CmdStart) || (cmd =? CmdEntry) then EntryIndex fromEntry
  else if (cmd =? CmdStartBookmark) || (cmd =? CmdBookmark)
       then BookmarkBytes fromBookmark
       else NoParams.

(** connectServer waits until the server connection is established and
    returns if a command result is pending.  One Dial uses up one outcome of
    the script [ds]; the outcomes left over are returned with the result. *)
Fixpoint connectServer (ds : list DialOutcome) (w : World)
  : Res World (bool * list DialOutcome) :=
  if connected (client w) then Done (false, ds) w
  else
    match ds with
    | [] => Unfinished w
    | DialErr e :: ds' =>
        match (emit (EvDial (server (client w))) ;;;
               modifyClient (set_conn None) ;;;
               Sleep defaultTimeout) w with
        | Done _ w' => connectServer ds' w'
        | Blocked w' => Blocked w'
        | Panicked w' => Panicked w'
        | Unfinished w' => Unfinished w'
        end
    | DialOk k :: ds' =>
        match (emit (EvDial (server (client w))) ;;;
               modifyClient (set_conn (Some k)) ;;;
               modifyClient (set_connected true) ;;;
               modifyClient (set_ID (localAddr k)) ;;;
               c <- getClient ;;
               if streaming c then
                 r <- execCommand CmdStart true (nextEntry c) [] ;;
                 match r with
                 | (_, _, Some _) =>
                     closeConnection ;;;
                     Sleep defaultTimeout ;;;
                     ret None
                 | (_, _, None) => ret (Some true)
                 end
               else ret (Some false)) w with
        | Done (Some b) w' => Done (b, ds') w'
        | Done None w' => connectServer ds' w'
        | Blocked w' => Blocked w'
        | Panicked w' => Panicked w'
        | Unfinished w' => Unfinished w'
        end
    end.

(** [io.ReadFull(c.conn, buffer)] on the connection of the client. *)
Definition ReadFull (n : nat) : M (list byte * option error) :=
  fun w =>
    match n, conn (client w) with
    | O, _ => Done ([], None) w
    | _, None => Panicked w
    | _, Some k =>
        match conn_ReadFull n k with
        | ReadDone k' buf err =>
            Done (buf, err) (mkWorld (set_conn (Some k') (client w)) (events w))
        | ReadWaits k' =>
            Blocked (mkWorld (set_conn (Some k') (client w)) (events w))
        end
    end.

(** readContent reads raw content using the connection and places it into
    buffer parameter *)
Definition readContent (n : nat) : M (list byte * option error) := ReadFull n.

(** readDataEntry reads bytes from server connection and returns a data
    entry type *)
Definition readDataEntry : M (FileEntry * option error) :=
  r <- readContent (Z.to_nat (FixedSizeFileEntry - 1)) ;;
  match r with
  | (_, Some e) => ret (zeroEntry, Some e)
  | (buf, None) =>
      let buffer := PtData :: buf in
      let length := Uint32 (firstn 4 (skipn 1 buffer)) in
      if length <? FixedSizeFileEntry then ret (zeroEntry, Some ErrReadingDataEntry)
      else
        r <- readContent (Z.to_nat (length - FixedSizeFileEntry)) ;;
        match r with
        | (_, Some e) => ret (zeroEntry, Some e)
        | (bufferAux, None) => ret (DecodeBinaryToFileEntry (buffer ++ bufferAux))
        end
  end.

(** readHeaderEntry reads bytes from server connection and returns a header
    entry type *)
Definition readHeaderEntry : M (HeaderEntry * option error) :=
  let h := zeroHeader in
  r <- ReadFull (Z.to_nat (headerSize - 1)) ;;
  match r with
  | (_, Some e) => ret (h, Some e)
  | (buf, None) =>
      if negb (Z.of_nat (length buf) =? headerSize - 1)
      then ret (h, Some ErrGettingHeaderInfo)
      else ret (decodeBinaryToHeaderEntry (PtHeader :: buf))
  end.

(** readResultEntry reads bytes from server connection and returns a result
    entry type *)
Definition readResultEntry : M (ResultEntry * option error) :=
  r <- ReadFull (Z.to_nat (FixedSizeResultEntry - 1)) ;;
  match r with
  | (_, Some e) => ret (zeroResult, Some e)
  | (buf, None) =>
      let buffer := PtResult :: buf in
      let length := Uint32 (firstn 4 (skipn 1 buffer)) in
      if length <? FixedSizeResultEntry
      then ret (zeroResult, Some ErrReadingResultEntry)
      else
        r <- readContent (Z.to_nat (length - FixedSizeResultEntry)) ;;
        match r with
        | (_, Some e) => ret (zeroResult, Some e)
        | (bufferAux, None) => ret (DecodeBinaryToResultEntry (buffer ++ bufferAux))
        end
  end.

(** One turn of the loop of readEntries.  Every path ends the turn, by
    [continue] or by falling out of the switch; the dial outcomes left over
    are handed to the next turn. *)
Definition readEntries_turn (ds : list DialOutcome) : M (list DialOutcome) :=
  cr <- connectServer ds ;;
  let deferredResult := fst cr in
  let ds' := snd cr in
  p <- readContent 1 ;;
  match p with
  | (_, Some _) => closeConnection ;;; ret ds'
  | (packet, None) =>
      let tag := hd 0 packet in
      if tag =? PtResult then
        r <- readResultEntry ;;
        match r with
        | (_, Some _) => closeConnection ;;; ret ds'
        | (r, None) =>
            send resultsBuffer results set_results r ;;;
            if deferredResult : bool then
              r <- getResult CmdStart ;;
              if negb (errorNum r =? CmdErrOK) then
                closeConnection ;;;
                Sleep defaultTimeout ;;;
                ret ds'
              else ret ds'
            else ret ds'
        end
      else if tag =? PtDataRsp then
        r <- readDataEntry ;;
        match r with
        | (_, Some _) => closeConnection ;;; ret ds'
        | (r, None) => send entryRspBuffer entryRsp set_entryRsp r ;;; ret ds'
        end
      else if tag =? PtHeader then
        r <- readHeaderEntry ;;
        match r with
        | (_, Some _) => closeConnection ;;; ret ds'
        | (h, None) => send headersBuffer headers set_headers h ;;; ret ds'
        end
      else if tag =? PtData then
        r <- readDataEntry ;;
        match r with
        | (_, Some _) => closeConnection ;;; ret ds'
        | (e, None) => send entriesBuffer entries set_entries e ;;; ret ds'
        end
      else ret ds'
  end.

Fixpoint readEntries_loop (turns : nat) (ds : list DialOutcome) : M Empty_set :=
  match turns with
  | O => fun w => Unfinished w
  | S n => ds' <- readEntries_turn ds ;; readEntries_loop n ds'
  end.

(** readEntries reads from the server all type of packets.  The loop has no
    exit; the deferred closeConnection runs when the goroutine panics. *)
Definition readEntries (turns : nat) (ds : list DialOutcome) : M Empty_set :=
  fun w =>
    match readEntries_loop turns ds w with
    | Panicked w' =>
        match closeConnection w' with
        | Done _ w'' => Panicked w''
        | _ => Panicked w'
        end
    | r => r
    end.

(** The call [c.processEntry(&e, c, c.relayServer)]. *)
Definition callProcessEntry (e : FileEntry) : M (option error) :=
  fun w =>
    let c := client w in
    let (c', r) := callFunc (processEntry c) e c (relayServer c) in
    Done r (mkWorld c' (events w ++ [EvProcess e c (relayServer c) r])).

(** getStreaming consumes streaming data entries; [turns] bounds the number
    of turns of its loop. *)
Fixpoint getStreaming (turns : nat) : M error :=
  match turns with
  | O => fun w => Unfinished w
  | S n =>
      e <- recv entries set_entries ;;
      modifyClient (set_nextEntry (wrap64 (Number e + 1))) ;;;
      err <- callProcessEntry e ;;
      match err with
      | Some x => ret x
      | None => getStreaming n
      end
  end.


(** Start connects to the data stream server and starts getting data from
    the server.  The two goroutines it launches are readEntries and
    getStreaming, which are embedded on their own; Start itself connects,
    sets the started flag and returns nil. *)
Definition Start (ds : list DialOutcome) : M (option error * list DialOutcome) :=
  cr <- connectServer ds ;;
  modifyClient (set_started true) ;;;
  ret (None, snd cr).

(** ExecCommandStart executes client TCP command to start streaming from
    entry *)
Definition ExecCommandStart (fromEntry : Z) : M (option error) :=
  r <- execCommand CmdStart false fromEntry [] ;;
  ret (snd r).

(** ExecCommandStartBookmark executes client TCP command to start streaming
    from bookmark *)
Definition ExecCommandStartBookmark (fromBookmark : list byte) : M (option error) :=
  r <- execCommand CmdStartBookmark false 0 fromBookmark ;;
  ret (snd r).

(** ExecCommandStop executes client TCP command to stop streaming *)
Definition ExecCommandStop : M (option error) :=
  r <- execCommand CmdStop false 0 [] ;;
  ret (snd r).

(** ExecCommandGetHeader executes client TCP command to get the header *)
Definition ExecCommandGetHeader : M (HeaderEntry * option error) :=
  r <- execCommand CmdHeader false 0 [] ;;
  ret (fst (fst r), snd r).

(** ExecCommandGetEntry executes client TCP command to get an entry *)
Definition ExecCommandGetEntry (fromEntry : Z) : M (FileEntry * option error) :=
  r <- execCommand CmdEntry false fromEntry [] ;;
  ret (snd (fst r), snd r).

(** ExecCommandGetBookmark executes client TCP command to get a bookmark *)
Definition ExecCommandGetBookmark (fromBookmark : list byte)
  : M (FileEntry * option error) :=
  r <- execCommand CmdBookmark false 0 fromBookmark ;;
  ret (snd (fst r), snd r).

(** The switch of readEntries on the packet type, after connectServer has
    returned [deferredResult] and the tag has been read. *)
Definition dispatchPacket (deferredResult : bool) (ds' : list DialOutcome)
    (tag : byte) : M (list DialOutcome) :=
  if tag =? PtResult then
    r <- readResultEntry ;;
    match r with
    | (_, Some _) => closeConnection ;;; ret ds'
    | (r, None) =>
        send resultsBuffer results set_results r ;;;
        if deferredResult : bool then
          r <- getResult CmdStart ;;
          if negb (errorNum r =? CmdErrOK) then
            closeConnection ;;;
            Sleep defaultTimeout ;;;
            ret ds'
          else ret ds'
        else ret ds'
    end
  else if tag =? PtDataRsp then
    r <- readDataEntry ;;
    match r with
    | (_, Some _) => closeConnection ;;; ret ds'
    | (r, None) => send entryRspBuffer entryRsp set_entryRsp r ;;; ret ds'
    end
  else if tag =? PtHeader then
    r <- readHeaderEntry ;;
    match r with
    | (_, Some _) => closeConnection ;;; ret ds'
    | (h, None) => send headersBuffer headers set_headers h ;;; ret ds'
    end
  else if tag =? PtData then
    r <- readDataEntry ;;
    match r with
    | (_, Some _) => closeConnection ;;; ret ds'
    | (e, None) => send entriesBuffer entries set_entries e ;;; ret ds'
    end
  else ret ds'.

(** * Properties *)

(** ** Big-endian words *)

Lemma to_byte_range v : 0 <= to_byte v < 256.
Proof.
  unfold to_byte. change 255 with (Z.ones 8).
  rewrite Z.land_ones by lia. apply Z.mod_pos_bound. lia.
Qed.

Lemma PutUint64_length v : length (PutUint64 v) = 8%nat.
Proof. reflexivity. Qed.

Lemma PutUint32_length v : length (PutUint32 v) = 4%nat.
Proof. reflexivity. Qed.

Lemma testbit_255 i : 0 <= i -> Z.testbit 255 i = (i <? 8).
Proof.
  intros Hi. change 255 with (Z.ones 8).
  rewrite Z.testbit_ones by lia.
  destruct (Z.leb_spec 0 i); [reflexivity | lia].
Qed.

Lemma testbit_to_byte v i :
  0 <= i -> Z.testbit (to_byte v) i = (i <? 8) && Z.testbit v i.
Proof.
  intros Hi. unfold to_byte.
  rewrite Z.land_spec, testbit_255 by lia. apply andb_comm.
Qed.

Lemma testbit_field v off n i :
  0 <= off -> 0 <= n -> 0 <= i ->
  Z.testbit (Z.shiftl (to_byte (Z.shiftr v off)) n) i =
  (n <=? i) && (i <? n + 8) && Z.testbit v (i - n + off).
Proof.
  intros Hoff Hn Hi. unfold to_byte.
  rewrite Z.shiftl_spec by lia.
  destruct (Z.leb_spec n i) as [Hle | Hlt].
  - rewrite Z.land_spec, Z.shiftr_spec, testbit_255 by lia.
    destruct (Z.ltb_spec (i - n) 8), (Z.ltb_spec i (n + 8)); try lia;
      simpl; rewrite ?andb_true_r, ?andb_false_r; reflexivity.
  - rewrite Z.testbit_neg_r by lia. reflexivity.
Qed.

(** What PutUint64 writes is the big-endian form of the low 64 bits. *)
Lemma Uint64_PutUint64 v : Uint64 (PutUint64 v) = wrap64 v.
Proof.
  unfold Uint64, PutUint64, wrap64.
  apply Z.bits_inj'. intros i Hi.
  rewrite !Z.lor_spec, !testbit_field, testbit_to_byte by lia.
  destruct (Z.ltb_spec i 64) as [Hlt | Hge].
  - rewrite Z.mod_pow2_bits_low by lia.
    repeat match goal with
    | |- context [?a <=? ?b] => destruct (Z.leb_spec a b); try lia
    | |- context [?a <? ?b] => destruct (Z.ltb_spec a b); try lia
    end; simpl; rewrite ?orb_false_r;
      try reflexivity; f_equal; lia.
  - rewrite Z.mod_pow2_bits_high by lia.
    repeat match goal with
    | |- context [?a <? ?b] => destruct (Z.ltb_spec a b); try lia
    end; rewrite ?andb_false_r; reflexivity.
Qed.

Lemma Uint32_PutUint32 v : Uint32 (PutUint32 v) = wrap32 v.
Proof.
  unfold Uint32, PutUint32, wrap32.
  apply Z.bits_inj'. intros i Hi.
  rewrite !Z.lor_spec, !testbit_field, testbit_to_byte by lia.
  destruct (Z.ltb_spec i 32) as [Hlt | Hge].
  - rewrite Z.mod_pow2_bits_low by lia.
    repeat match goal with
    | |- context [?a <=? ?b] => destruct (Z.leb_spec a b); try lia
    | |- context [?a <? ?b] => destruct (Z.ltb_spec a b); try lia
    end; simpl; rewrite ?orb_false_r;
      try reflexivity; f_equal; lia.
  - rewrite Z.mod_pow2_bits_high by lia.
    repeat match goal with
    | |- context [?a <? ?b] => destruct (Z.ltb_spec a b); try lia
    end; rewrite ?andb_false_r; reflexivity.
Qed.

(** ** Switch constants *)

Lemma distinct_eqb l i j a b :
  distinct l = true ->
  nth_error l i = Some a -> nth_error l j = Some b -> i <> j ->
  (a =? b) = false.
Proof.
  assert (Hin : forall l x y n, existsb (Z.eqb x) l = false ->
                  nth_error l n = Some y -> (x =? y) = false).
  { intros l0. induction l0 as [|z l0 IH]; intros x y [|n] Hex Hn;
      simpl in *; try discriminate;
      apply orb_false_iff in Hex; destruct Hex as [Hz Hex].
    - injection Hn as <-. exact Hz.
    - eauto. }
  revert i j. induction l as [|z l IH]; intros i j Hd Hi Hj Hij.
  - destruct i; discriminate.
  - simpl in Hd. apply andb_true_iff in Hd. destruct Hd as [Hz Hd].
    apply negb_true_iff in Hz.
    destruct i as [|i], j as [|j]; simpl in Hi, Hj.
    + congruence.
    + injection Hi as <-. eauto.
    + injection Hj as <-. rewrite Z.eqb_sym. eauto.
    + apply (IH i j); auto.
Qed.

Ltac cmd_idx t :=
  lazymatch t with
  | CmdStart => constr:(0%nat)
  | CmdStartBookmark => constr:(1%nat)
  | CmdStop => constr:(2%nat)
  | CmdHeader => constr:(3%nat)
  | CmdEntry => constr:(4%nat)
  | CmdBookmark => constr:(5%nat)
  end.

(** Decides every comparison of two opcodes in the goal. *)
Ltac cmd_eqb :=
  repeat match goal with
  | |- context [?a =? ?a] => rewrite (Z.eqb_refl a)
  | |- context [?a =? ?b] =>
      let i := cmd_idx a in
      let j := cmd_idx b in
      rewrite (distinct_eqb _ i j a b commands_distinct eq_refl eq_refl
                 ltac:(discriminate))
  end.

Lemma IsACommand_In cmd :
  IsACommand cmd = true <->
  In cmd [CmdStart; CmdStop; CmdHeader; CmdStartBookmark; CmdEntry; CmdBookmark].
Proof.
  unfold IsACommand. rewrite existsb_exists. split.
  - intros (x & Hin & Heq). apply Z.eqb_eq in Heq. subst x. exact Hin.
  - intros Hin. exists cmd. split; [exact Hin | apply Z.eqb_refl].
Qed.

Lemma IsACommand_cases cmd :
  IsACommand cmd = true ->
  cmd = CmdStart \/ cmd = CmdStop \/ cmd = CmdHeader \/
  cmd = CmdStartBookmark \/ cmd = CmdEntry \/ cmd = CmdBookmark.
Proof.
  intros H. apply IsACommand_In in H. simpl in H.
  intuition auto.
Qed.

(** ** The write phase of a command *)

Lemma set_conn_same c k : conn c = Some k -> set_conn (Some k) c = c.
Proof. destruct c; simpl; intros ->; reflexivity. Qed.

Lemma with_conn_same w k : conn (client w) = Some k -> with_conn k w = w.
Proof.
  intros H. unfold with_conn. rewrite set_conn_same by exact H.
  destruct w; reflexivity.
Qed.

Lemma onConn_write64 v w k :
  conn (client w) = Some k ->
  onConn (writeFullUint64 v) w =
  Done (snd (conn_Write (PutUint64 v) k))
       (with_conn (fst (conn_Write (PutUint64 v) k)) w).
Proof.
  intros H. unfold onConn, writeFullUint64, write_or_nil. rewrite H.
  destruct (conn_Write (PutUint64 v) k) as [k' [e|]]; reflexivity.
Qed.

Lemma onConn_write32 v w k :
  conn (client w) = Some k ->
  onConn (writeFullUint32 v) w =
  Done (snd (conn_Write (PutUint32 v) k))
       (with_conn (fst (conn_Write (PutUint32 v) k)) w).
Proof.
  intros H. unfold onConn, writeFullUint32, write_or_nil. rewrite H.
  destruct (conn_Write (PutUint32 v) k) as [k' [e|]]; reflexivity.
Qed.

Lemma onConn_writeBytes b w k :
  conn (client w) = Some k ->
  onConn (writeFullBytes b) w =
  Done (snd (conn_Write b k)) (with_conn (fst (conn_Write b k)) w).
Proof.
  intros H. unfold onConn, writeFullBytes, write_or_nil. rewrite H.
  destruct (conn_Write b k) as [k' [e|]]; reflexivity.
Qed.

(** The parameters go out as the writes of [paramWrites], up to the first
    failure. *)
Lemma sendParams_writes cmd fe fb w k :
  IsACommand cmd = true ->
  conn (client w) = Some k ->
  sendParams cmd fe fb w =
  Done (snd (writeAll (paramWrites (paramsOf cmd fe fb)) k))
       (with_conn (fst (writeAll (paramWrites (paramsOf cmd fe fb)) k)) w).
Proof.
  intros Hcmd Hk. unfold sendParams, paramsOf.
  destruct (IsACommand_cases cmd Hcmd) as [->|[->|[->|[->|[->| ->]]]]];
    cmd_eqb; cbn [orb paramWrites writeAll].
  - rewrite (onConn_write64 _ _ k Hk).
    destruct (conn_Write (PutUint64 fe) k) as [k' [e|]]; reflexivity.
  - unfold ret. rewrite with_conn_same by exact Hk. reflexivity.
  - unfold ret. rewrite with_conn_same by exact Hk. reflexivity.
  - unfold bind. rewrite (onConn_write32 _ _ k Hk).
    destruct (conn_Write (PutUint32 _) k) as [k1 [e|]]; cbn [fst snd].
    + reflexivity.
    + rewrite (onConn_writeBytes fb (with_conn k1 w) k1 eq_refl).
      destruct (conn_Write fb k1) as [k2 [e|]]; reflexivity.
  - rewrite (onConn_write64 _ _ k Hk).
    destruct (conn_Write (PutUint64 fe) k) as [k' [e|]]; reflexivity.
  - unfold bind. rewrite (onConn_write32 _ _ k Hk).
    destruct (conn_Write (PutUint32 _) k) as [k1 [e|]]; cbn [fst snd].
    + reflexivity.
    + rewrite (onConn_writeBytes fb (with_conn k1 w) k1 eq_refl).
      destruct (conn_Write fb k1) as [k2 [e|]]; reflexivity.
Qed.

(** A started client executing a known command on a connection that is
    there: the writes of [commandWrites] in a row, the first failure ending
    the command with its error, and then the result phase. *)
Lemma execCommand_writes cmd d fe fb w k :
  started (client w) = true ->
  IsACommand cmd = true ->
  conn (client w) = Some k ->
  execCommand cmd d fe fb w =
  match writeAll (commandWrites cmd (streamType (client w)) (paramsOf cmd fe fb)) k with
  | (k', Some e) => Done (zeroHeader, zeroEntry, Some e) (with_conn k' w)
  | (k', None) => awaitResult cmd d fe (with_conn k' w)
  end.
Proof.
  intros Hs Hcmd Hk. unfold execCommand, bind at 1, getClient.
  rewrite Hs, Hcmd. cbn [negb]. unfold commandWrites. cbn [writeAll].
  unfold bind at 1. rewrite (onConn_write64 _ _ k Hk).
  destruct (conn_Write (PutUint64 cmd) k) as [k1 [e|]]; cbn [fst snd].
  { reflexivity. }
  unfold bind at 1. rewrite (onConn_write64 _ (with_conn k1 w) k1 eq_refl).
  destruct (conn_Write (PutUint64 _) k1) as [k2 [e|]]; cbn [fst snd].
  { reflexivity. }
  unfold bind at 1.
  rewrite (sendParams_writes cmd fe fb (with_conn k2 (with_conn k1 w)) k2 Hcmd eq_refl).
  destruct (writeAll _ k2) as [k3 [e|]]; reflexivity.
Qed.

Lemma writes_ok_le n m ws :
  (n <= m)%nat -> writes_ok m ws = true -> writes_ok n ws = true.
Proof.
  revert m ws. induction n as [|n IH]; intros m ws Hle H; [reflexivity|].
  destruct m as [|m]; [lia|].
  destruct ws as [|[|] ws]; simpl in *; try reflexivity; try discriminate.
  apply (IH m); [lia | exact H].
Qed.

Lemma writeAll_ok bufs : forall k,
  closed k = false ->
  writes_ok (length bufs) (writes k) = true ->
  writeAll bufs k = (sent bufs k, None).
Proof.
  induction bufs as [|b bufs IH]; intros k Hc Hw.
  - destruct k as [la ra inc wi ws cl pg]. simpl in Hc. subst cl.
    unfold sent. simpl. rewrite app_nil_r. reflexivity.
  - destruct k as [la ra inc wi ws cl pg]. simpl in Hc. subst cl.
    cbn [writeAll]. unfold conn_Write. cbn [closed writes].
    destruct ws as [|[|n e] ws]; cbn [length writes_ok writes] in Hw;
      try discriminate.
    + rewrite IH by (simpl; auto using writes_ok_le; destruct (length bufs); reflexivity).
      unfold sent. simpl. rewrite skipn_nil, <- app_assoc. reflexivity.
    + rewrite IH by (simpl; auto).
      unfold sent. simpl. rewrite <- app_assoc. reflexivity.
Qed.

Lemma writeAll_fail j : forall bufs k n e rest,
  closed k = false ->
  writes k = repeat WriteOk j ++ WriteErr n e :: rest ->
  (j < length bufs)%nat ->
  writeAll bufs k = (cut bufs j n k, Some e).
Proof.
  induction j as [|j IH]; intros bufs k n e rest Hc Hw Hj;
    destruct bufs as [|b bufs]; simpl in Hj; try lia;
    destruct k as [la ra inc wi ws cl pg]; simpl in Hc, Hw; subst cl ws.
  - reflexivity.
  - cbn [writeAll]. unfold conn_Write. cbn [closed writes].
    erewrite IH; [ | reflexivity | reflexivity | lia ].
    unfold cut. simpl. rewrite <- !app_assoc. reflexivity.
Qed.

Lemma writeAll_closed b bufs k :
  closed k = true -> writeAll (b :: bufs) k = (k, Some ErrClosed).
Proof. intros H. simpl. unfold conn_Write. rewrite H. reflexivity. Qed.

Lemma commandWrites_length cmd st p :
  (length (commandWrites cmd st p) <= 4)%nat.
Proof. destruct p; simpl; lia. Qed.

(** When the writes succeed the command reaches its result phase with the
    whole frame on the line. *)
Lemma execCommand_sent cmd d fe fb w :
  can_send w = true ->
  IsACommand cmd = true ->
  exists k,
    conn (client w) = Some k /\
    execCommand cmd d fe fb w =
    awaitResult cmd d fe
      (with_conn (sent (commandWrites cmd (streamType (client w))
                          (paramsOf cmd fe fb)) k) w).
Proof.
  intros Hcs Hcmd. unfold can_send in Hcs.
  apply andb_true_iff in Hcs. destruct Hcs as [Hs Hk].
  destruct (conn (client w)) as [k|] eqn:Ek; [|discriminate].
  apply andb_true_iff in Hk. destruct Hk as [Hc Hw].
  apply negb_true_iff in Hc.
  exists k. split; [reflexivity|].
  rewrite (execCommand_writes cmd d fe fb w k Hs Hcmd Ek).
  rewrite writeAll_ok; [reflexivity | exact Hc | ].
  eapply writes_ok_le; [apply commandWrites_length | exact Hw].
Qed.

Lemma IsACommand_Start : IsACommand CmdStart = true.
Proof. apply IsACommand_In. simpl. auto. Qed.
Lemma IsACommand_Stop : IsACommand CmdStop = true.
Proof. apply IsACommand_In. simpl. auto. Qed.
Lemma IsACommand_Header : IsACommand CmdHeader = true.
Proof. apply IsACommand_In. simpl. auto. Qed.
Lemma IsACommand_StartBookmark : IsACommand CmdStartBookmark = true.
Proof. apply IsACommand_In. simpl. auto. Qed.
Lemma IsACommand_Entry : IsACommand CmdEntry = true.
Proof. apply IsACommand_In. simpl. auto 6. Qed.
Lemma IsACommand_Bookmark : IsACommand CmdBookmark = true.
Proof. apply IsACommand_In. simpl. auto 7. Qed.

(** The result phase leaves the connection alone. *)
Lemma awaitResult_conn cmd d fe w :
  conn (client (final (awaitResult cmd d fe w))) = conn (client w).
Proof.
  unfold awaitResult, afterResult, bind, getResult, getHeader, getEntry,
    recv, ret, modifyClient.
  destruct d; cbn [final client conn].
  2: destruct (results (client w)) as [|r q]; [reflexivity|];
     cbn [final client conn];
     destruct (negb (errorNum r =? CmdErrOK)); [reflexivity|].
  all: repeat match goal with
       | |- context [if ?b then _ else _] => destruct b
       | |- context [match ?l with [] => _ | _ :: _ => _ end] => destruct l
       end; reflexivity.
Qed.

(** No command touches the started flag; streaming is set only by a
    command that got past the check of this flag. *)
Lemma awaitResult_started cmd d fe w :
  started (client (final (awaitResult cmd d fe w))) = started (client w).
Proof.
  unfold awaitResult, afterResult, bind, getResult, getHeader, getEntry,
    recv, ret, modifyClient.
  destruct d; cbn [final client started].
  2: destruct (results (client w)) as [|r q]; [reflexivity|];
     cbn [final client started];
     destruct (negb (errorNum r =? CmdErrOK)); [reflexivity|].
  all: repeat match goal with
       | |- context [if ?b then _ else _] => destruct b
       | |- context [match ?l with [] => _ | _ :: _ => _ end] => destruct l
       end; reflexivity.
Qed.

Lemma execCommand_started cmd d fe fb w :
  started (client (final (execCommand cmd d fe fb w))) = started (client w).
Proof.
  destruct (started (client w)) eqn:Hs.
  2: { unfold execCommand, bind at 1, getClient. rewrite Hs. exact Hs. }
  destruct (IsACommand cmd) eqn:Hcmd.
  2: { unfold execCommand, bind at 1, getClient. rewrite Hs, Hcmd. exact Hs. }
  destruct (conn (client w)) as [k|] eqn:Hk.
  - rewrite (execCommand_writes cmd d fe fb w k Hs Hcmd Hk).
    destruct (writeAll _ k) as [k' [e|]]; [exact Hs|].
    rewrite awaitResult_started. exact Hs.
  - unfold execCommand, bind at 1, getClient. rewrite Hs, Hcmd. cbn [negb].
    unfold bind at 1. unfold onConn, writeFullUint64, write_or_nil.
    rewrite Hk. cbn. exact Hs.
Qed.

Lemma execCommand_streaming_started cmd d fe fb w :
  (streaming (client w) = true -> started (client w) = true) ->
  streaming (client (final (execCommand cmd d fe fb w))) = true ->
  started (client (final (execCommand cmd d fe fb w))) = true.
Proof.
  intros Hinv. rewrite execCommand_started.
  destruct (started (client w)) eqn:Hs; [reflexivity|].
  unfold execCommand, bind at 1, getClient. rewrite Hs. cbn [negb].
  unfold ret. cbn [final]. exact Hinv.
Qed.

(** ** The framed writes on a nil connection *)

(** C10.  The claim: called with a nil connection, each of writeFullUint64,
    writeFullUint32 and writeFullBytes returns the nil-connection error,
    writes nothing and does not crash.  The code: it sets the error to
    ErrNilConnection and then builds the log line from
    [conn.RemoteAddr()], a method call on the nil interface; the call
    panics and the error is never returned. *)
Theorem writeFull_nil_conn_panics (value : Z) (buffer : list byte) :
  writeFullUint64 value None = Panicked None /\
  writeFullUint32 value None = Panicked None /\
  writeFullBytes buffer None = Panicked None.
Proof. repeat split. Qed.

(** ** Commands that are refused *)

(** C7.  A command issued while the client is not started fails with
    ErrExecCommandNotAllowed; a value that is not one of the six commands,
    issued on a started client, fails with ErrInvalidCommand.  In both
    cases the world after is the world before: nothing was written to the
    connection and no field of the client changed. *)
Theorem execCommand_refused (cmd : Z) (d : bool) (fe : Z) (fb : list byte)
    (w : World) :
  (started (client w) = false ->
   execCommand cmd d fe fb w =
   Done (zeroHeader, zeroEntry, Some ErrExecCommandNotAllowed) w) /\
  (started (client w) = true ->
   ~ In cmd [CmdStart; CmdStop; CmdHeader; CmdStartBookmark; CmdEntry;
             CmdBookmark] ->
   execCommand cmd d fe fb w =
   Done (zeroHeader, zeroEntry, Some ErrInvalidCommand) w).
Proof.
  split.
  - intros Hs. unfold execCommand, bind, getClient. rewrite Hs. reflexivity.
  - intros Hs Hcmd. unfold execCommand, bind, getClient. rewrite Hs.
    destruct (IsACommand cmd) eqn:E.
    + apply IsACommand_In in E. contradiction.
    + reflexivity.
Qed.

(** ** The frame of a command *)

(** C9.  A known command on a started client whose connection is there.
    The buffers written are, in this order, the opcode and the stream type
    as 8-byte big-endian words and then the parameters: the 8-byte entry
    index for Start and Entry, the 4-byte big-endian length and the raw
    bookmark for StartBookmark and Bookmark, nothing for Stop and Header.
    When the writes succeed the line carries exactly these bytes, whatever
    the result phase does afterwards.  When the write number [j] fails with
    an error [e] after [n] bytes, the command returns [e] at once: the line
    carries the buffers before [j] and the [n] bytes, and nothing else of
    the client has changed.  On a closed connection the first write fails
    and the command returns its error. *)
Theorem execCommand_frame (cmd : Z) (d : bool) (fe : Z) (fb : list byte)
    (w : World) (k : Conn) :
  started (client w) = true ->
  IsACommand cmd = true ->
  conn (client w) = Some k ->
  let st := streamType (client w) in
  let bufs := commandWrites cmd st (paramsOf cmd fe fb) in
  (paramsOf CmdStart fe fb = EntryIndex fe /\
   paramsOf CmdEntry fe fb = EntryIndex fe /\
   paramsOf CmdStartBookmark fe fb = BookmarkBytes fb /\
   paramsOf CmdBookmark fe fb = BookmarkBytes fb /\
   paramsOf CmdStop fe fb = NoParams /\
   paramsOf CmdHeader fe fb = NoParams) /\
  (closed k = false ->
   writes_ok (length bufs) (writes k) = true ->
   exists k',
     conn (client (final (execCommand cmd d fe fb w))) = Some k' /\
     wire k' = wire k ++ concat bufs) /\
  (forall j n e rest,
     closed k = false ->
     writes k = repeat WriteOk j ++ WriteErr n e :: rest ->
     (j < length bufs)%nat ->
     execCommand cmd d fe fb w =
     Done (zeroHeader, zeroEntry, Some e) (with_conn (cut bufs j n k) w) /\
     wire (cut bufs j n k) =
     wire k ++ concat (firstn j bufs) ++ firstn n (nth j bufs [])) /\
  (closed k = true ->
   execCommand cmd d fe fb w = Done (zeroHeader, zeroEntry, Some ErrClosed) w).
Proof.
  intros Hs Hcmd Hk st bufs. split; [|split; [|split]].
  - unfold paramsOf. repeat split; cmd_eqb; reflexivity.
  - intros Hc Hw.
    rewrite (execCommand_writes cmd d fe fb w k Hs Hcmd Hk).
    fold st. fold bufs. rewrite (writeAll_ok bufs k Hc Hw).
    rewrite awaitResult_conn. exists (sent bufs k). split; reflexivity.
  - intros j n e rest Hc Hw Hj.
    rewrite (execCommand_writes cmd d fe fb w k Hs Hcmd Hk).
    fold st. fold bufs. rewrite (writeAll_fail j bufs k n e rest Hc Hw Hj).
    split; reflexivity.
  - intros Hc.
    rewrite (execCommand_writes cmd d fe fb w k Hs Hcmd Hk).
    unfold commandWrites. rewrite (writeAll_closed _ _ k Hc).
    rewrite with_conn_same by exact Hk. reflexivity.
Qed.

(** ** The effects of a command *)

(** C5.  A command that is not deferred, on a client that can send, with
    an OK result waiting: Start from [K] ends with streaming set and
    fromStream = K; StartBookmark ends with streaming set and fromStream as
    it was; Stop ends with streaming cleared; Header returns the header
    received and stores its TotalEntries in totalEntries; Entry and
    Bookmark return the entry received when its type is not
    EntryTypeNotFound. *)
Theorem execCommand_success (w : World) (r : ResultEntry)
    (q : list ResultEntry) (fe : Z) (fb : list byte) :
  can_send w = true ->
  results (client w) = r :: q ->
  errorNum r = CmdErrOK ->
  (exists w',
     execCommand CmdStart false fe fb w = Done (zeroHeader, zeroEntry, None) w' /\
     streaming (client w') = true /\ fromStream (client w') = fe) /\
  (exists w',
     execCommand CmdStartBookmark false fe fb w =
       Done (zeroHeader, zeroEntry, None) w' /\
     streaming (client w') = true /\
     fromStream (client w') = fromStream (client w)) /\
  (exists w',
     execCommand CmdStop false fe fb w = Done (zeroHeader, zeroEntry, None) w' /\
     streaming (client w') = false) /\
  (forall h hq, headers (client w) = h :: hq ->
   exists w',
     execCommand CmdHeader false fe fb w = Done (h, zeroEntry, None) w' /\
     totalEntries (client w') = TotalEntries h) /\
  (forall e eq_, entryRsp (client w) = e :: eq_ ->
   Type_ e <> EntryTypeNotFound ->
   (exists w',
      execCommand CmdEntry false fe fb w = Done (zeroHeader, e, None) w') /\
   (exists w',
      execCommand CmdBookmark false fe fb w = Done (zeroHeader, e, None) w')).
Proof.
  intros Hcs Hr Hok.
  assert (Heqb : (errorNum r =? CmdErrOK) = true) by (apply Z.eqb_eq; exact Hok).
  repeat split.
  - destruct (execCommand_sent CmdStart false fe fb w Hcs IsACommand_Start)
      as (k & Hk & ->).
    unfold awaitResult, bind, getResult, recv. cbn [client with_conn].
    cbn [set_conn results]. rewrite Hr. unfold ret at 1. cbn [negb].
    rewrite Heqb. cbn [negb]. unfold afterResult. cmd_eqb.
    eexists. split; [reflexivity|]. split; reflexivity.
  - destruct (execCommand_sent CmdStartBookmark false fe fb w Hcs
                IsACommand_StartBookmark) as (k & Hk & ->).
    unfold awaitResult, bind, getResult, recv. cbn [client with_conn].
    cbn [set_conn results]. rewrite Hr. unfold ret at 1.
    rewrite Heqb. cbn [negb]. unfold afterResult. cmd_eqb.
    eexists. split; [reflexivity|]. split; reflexivity.
  - destruct (execCommand_sent CmdStop false fe fb w Hcs IsACommand_Stop)
      as (k & Hk & ->).
    unfold awaitResult, bind, getResult, recv. cbn [client with_conn].
    cbn [set_conn results]. rewrite Hr. unfold ret at 1.
    rewrite Heqb. cbn [negb]. unfold afterResult. cmd_eqb.
    eexists. split; reflexivity.
  - intros h hq Hh.
    destruct (execCommand_sent CmdHeader false fe fb w Hcs IsACommand_Header)
      as (k & Hk & ->).
    unfold awaitResult, bind, getResult, recv. cbn [client with_conn].
    cbn [set_conn results]. rewrite Hr. unfold ret at 1.
    rewrite Heqb. cbn [negb]. unfold afterResult. cmd_eqb.
    unfold bind, getHeader, recv. cbn [client set_results set_conn headers].
    rewrite Hh. eexists. split; reflexivity.
  - destruct (execCommand_sent CmdEntry false fe fb w Hcs IsACommand_Entry)
      as (k & Hk & ->).
    unfold awaitResult, bind, getResult, recv. cbn [client with_conn].
    cbn [set_conn results]. rewrite Hr. unfold ret at 1.
    rewrite Heqb. cbn [negb]. unfold afterResult. cmd_eqb.
    unfold bind, getEntry, recv. cbn [client set_results set_conn entryRsp].
    rewrite H. rewrite (proj2 (Z.eqb_neq _ _) H0).
    eexists. reflexivity.
  - destruct (execCommand_sent CmdBookmark false fe fb w Hcs IsACommand_Bookmark)
      as (k & Hk & ->).
    unfold awaitResult, bind, getResult, recv. cbn [client with_conn].
    cbn [set_conn results]. rewrite Hr. unfold ret at 1.
    rewrite Heqb. cbn [negb]. unfold afterResult. cmd_eqb.
    unfold bind, getEntry, recv. cbn [client set_results set_conn entryRsp].
    rewrite H. rewrite (proj2 (Z.eqb_neq _ _) H0).
    eexists. reflexivity.
Qed.

(** C6.  A known command that is not deferred, on a client that can send,
    whose result carries a code other than OK: the command returns
    ErrResultCommandError; the result has been taken from its queue and
    nothing else of the client but the connection has changed, so
    streaming, fromStream and totalEntries are as before and no header or
    data response has been consumed.  A deferred Start, StartBookmark or
    Stop sets streaming (and fromStream for Start) right after the writes
    and leaves the result queue as it was, empty or not. *)
Theorem execCommand_result_gate (cmd : Z) (fe : Z) (fb : list byte)
    (w : World) :
  can_send w = true ->
  (forall r q,
     IsACommand cmd = true ->
     results (client w) = r :: q ->
     errorNum r <> CmdErrOK ->
     exists k',
       execCommand cmd false fe fb w =
       Done (zeroHeader, zeroEntry, Some ErrResultCommandError)
            (mkWorld (set_results q (set_conn (Some k') (client w))) (events w))) /\
  (exists w',
     execCommand CmdStart true fe fb w = Done (zeroHeader, zeroEntry, None) w' /\
     streaming (client w') = true /\ fromStream (client w') = fe /\
     results (client w') = results (client w)) /\
  (exists w',
     execCommand CmdStartBookmark true fe fb w =
       Done (zeroHeader, zeroEntry, None) w' /\
     streaming (client w') = true /\
     fromStream (client w') = fromStream (client w) /\
     results (client w') = results (client w)) /\
  (exists w',
     execCommand CmdStop true fe fb w = Done (zeroHeader, zeroEntry, None) w' /\
     streaming (client w') = false /\
     fromStream (client w') = fromStream (client w) /\
     results (client w') = results (client w)).
Proof.
  intros Hcs. split; [|split; [|split]].
  - intros r q Hcmd Hr Hne.
    destruct (execCommand_sent cmd false fe fb w Hcs Hcmd) as (k & Hk & ->).
    unfold awaitResult, bind, getResult, recv. cbn [client with_conn].
    cbn [set_conn results]. rewrite Hr. unfold ret at 1.
    rewrite (proj2 (Z.eqb_neq _ _) Hne). cbn [negb].
    eexists. reflexivity.
  - destruct (execCommand_sent CmdStart true fe fb w Hcs IsACommand_Start)
      as (k & Hk & ->).
    unfold awaitResult, bind. unfold ret at 1. unfold afterResult. cmd_eqb.
    eexists. split; [reflexivity|]. repeat split.
  - destruct (execCommand_sent CmdStartBookmark true fe fb w Hcs
                IsACommand_StartBookmark) as (k & Hk & ->).
    unfold awaitResult, bind. unfold ret at 1. unfold afterResult. cmd_eqb.
    eexists. split; [reflexivity|]. repeat split.
  - destruct (execCommand_sent CmdStop true fe fb w Hcs IsACommand_Stop)
      as (k & Hk & ->).
    unfold awaitResult, bind. unfold ret at 1. unfold afterResult. cmd_eqb.
    eexists. split; [reflexivity|]. repeat split.
Qed.

(** C8.  An Entry or Bookmark command that has passed its result phase
    (deferred, or with an OK result waiting) and whose data response has
    the type EntryTypeNotFound returns ErrEntryNotFound, respectively
    ErrBookmarkNotFound, together with the zero entry; with any other type
    it returns the entry received and no error. *)
Theorem execCommand_not_found (d : bool) (fe : Z) (fb : list byte)
    (w : World) (e : FileEntry) (rest : list FileEntry) :
  can_send w = true ->
  d || match results (client w) with
       | r :: _ => errorNum r =? CmdErrOK
       | [] => false
       end = true ->
  entryRsp (client w) = e :: rest ->
  (Type_ e = EntryTypeNotFound ->
   (exists w',
      execCommand CmdEntry d fe fb w =
      Done (zeroHeader, zeroEntry, Some ErrEntryNotFound) w') /\
   (exists w',
      execCommand CmdBookmark d fe fb w =
      Done (zeroHeader, zeroEntry, Some ErrBookmarkNotFound) w')) /\
  (Type_ e <> EntryTypeNotFound ->
   (exists w',
      execCommand CmdEntry d fe fb w = Done (zeroHeader, e, None) w') /\
   (exists w',
      execCommand CmdBookmark d fe fb w = Done (zeroHeader, e, None) w')).
Proof.
  intros Hcs Hres He.
  assert (Hphase : forall cmd w0,
            results (client w0) = results (client w) ->
            exists w1,
              awaitResult cmd d fe w0 = afterResult cmd fe w1 /\
              entryRsp (client w1) = entryRsp (client w0)).
  { intros cmd w0 Hw0. unfold awaitResult, bind, getResult, recv.
    destruct d.
    - exists w0. split; reflexivity.
    - rewrite Hw0. cbn [orb] in Hres.
      destruct (results (client w)) as [|r q]; [discriminate|].
      unfold ret at 1. rewrite Hres. cbn [negb].
      eexists. split; [reflexivity|]. reflexivity. }
  destruct (execCommand_sent CmdEntry d fe fb w Hcs IsACommand_Entry)
    as (k & Hk & ->).
  destruct (execCommand_sent CmdBookmark d fe fb w Hcs IsACommand_Bookmark)
    as (k2 & Hk2 & ->).
  destruct (Hphase CmdEntry
              (with_conn (sent (commandWrites CmdEntry (streamType (client w))
                                  (paramsOf CmdEntry fe fb)) k) w) eq_refl)
    as (w1 & -> & H1).
  destruct (Hphase CmdBookmark
              (with_conn (sent (commandWrites CmdBookmark (streamType (client w))
                                  (paramsOf CmdBookmark fe fb)) k2) w) eq_refl)
    as (w2 & -> & H2).
  cbn [with_conn client set_conn entryRsp] in H1, H2.
  rewrite He in H1, H2.
  unfold afterResult. cmd_eqb. unfold bind, getEntry, recv.
  rewrite H1, H2.
  split; intros Ht.
  - rewrite (proj2 (Z.eqb_eq _ _) Ht). split; eexists; reflexivity.
  - rewrite (proj2 (Z.eqb_neq _ _) Ht). split; eexists; reflexivity.
Qed.

(** ** The streaming consumer *)

Lemma getStreaming_turn n w e q :
  entries (client w) = e :: q ->
  getStreaming (S n) w =
  let c1 := set_nextEntry (wrap64 (Number e + 1)) (set_entries q (client w)) in
  match callFunc (processEntry c1) e c1 (relayServer c1) with
  | (c2, Some err) =>
      Done err (mkWorld c2 (events w ++ [EvProcess e c1 (relayServer c1) (Some err)]))
  | (c2, None) =>
      getStreaming n
        (mkWorld c2 (events w ++ [EvProcess e c1 (relayServer c1) None]))
  end.
Proof.
  intros Hq. cbn [getStreaming].
  unfold bind, recv, modifyClient, callProcessEntry. rewrite Hq.
  cbn [client events].
  destruct (callFunc _ e _ _) as [c2 [err|]]; reflexivity.
Qed.

Lemma getStreaming_empty n w :
  entries (client w) = [] -> getStreaming (S n) w = Blocked w.
Proof.
  intros Hq. cbn [getStreaming]. unfold bind, recv. rewrite Hq. reflexivity.
Qed.

Lemma cursorSet_call e q c r :
  cursorSet
    (EvProcess e (set_nextEntry (wrap64 (Number e + 1)) (set_entries q c))
       (relayServer (set_nextEntry (wrap64 (Number e + 1)) (set_entries q c)))
       r) = true.
Proof.
  cbn [cursorSet nextEntry set_nextEntry relayServer set_entries].
  rewrite Z.eqb_refl.
  destruct (relayServer c); cbn; rewrite ?Nat.eqb_refl; reflexivity.
Qed.

(** C1.  One turn of the loop on a queue that starts with the entry [e]:
    the cursor is set to e.Number + 1 (uint64 arithmetic), then the
    registered callback is called with [e], the client as it is then, and
    its relay server; when the callback returns an error the loop ends and
    getStreaming returns this error, otherwise the loop goes on with the
    next turn.  Over a whole run: every call of the callback saw the cursor
    one past its entry; a call that returned an error is the last one and
    its error is what getStreaming returns; the loop never panics, and it
    stops short of the bound on its turns only to return such an error or
    to wait on the empty queue. *)
Theorem getStreaming_delivers (n : nat) (w : World) :
  (forall e q,
     entries (client w) = e :: q ->
     let c1 := set_nextEntry (wrap64 (Number e + 1)) (set_entries q (client w)) in
     let out := callFunc (processEntry c1) e c1 (relayServer c1) in
     let w2 := mkWorld (fst out)
                 (events w ++ [EvProcess e c1 (relayServer c1) (snd out)]) in
     nextEntry c1 = wrap64 (Number e + 1) /\
     (Number e < 2 ^ 64 - 1 -> 0 <= Number e -> nextEntry c1 = Number e + 1) /\
     (forall err, snd out = Some err -> getStreaming (S n) w = Done err w2) /\
     (snd out = None -> getStreaming (S n) w = getStreaming n w2)) /\
  (exists calls,
     events (final (getStreaming n w)) = events w ++ calls /\
     forallb cursorSet calls = true /\
     match getStreaming n w with
     | Done err w' =>
         exists calls0 e c s,
           calls = calls0 ++ [EvProcess e c s (Some err)] /\
           forallb accepted calls0 = true
     | Blocked w' =>
         forallb accepted calls = true /\ entries (client w') = []
     | Unfinished w' =>
         forallb accepted calls = true /\ length calls = n
     | Panicked _ => False
     end).
Proof.
  split.
  - intros e q Hq c1 out w2. split; [reflexivity|]. split.
    { intros Hlt Hge. subst c1. cbn [nextEntry set_nextEntry]. unfold wrap64.
      apply Z.mod_small. lia. }
    rewrite (getStreaming_turn n w e q Hq). cbv zeta. fold c1.
    subst w2 out. destruct (callFunc _ e c1 _) as [c2 r].
    cbn [fst snd]. split.
    + intros err ->. reflexivity.
    + intros ->. reflexivity.
  - revert w. induction n as [|n IH]; intros w.
    + exists []. cbn [getStreaming final]. rewrite app_nil_r.
      repeat split.
    + destruct (entries (client w)) as [|e q] eqn:Hq.
      * exists []. rewrite (getStreaming_empty n w Hq).
        cbn [final]. rewrite app_nil_r. repeat split. exact Hq.
      * rewrite (getStreaming_turn n w e q Hq). cbv zeta.
        set (c1 := set_nextEntry (wrap64 (Number e + 1)) (set_entries q (client w))).
        destruct (callFunc (processEntry c1) e c1 (relayServer c1))
          as [c2 [err|]] eqn:Eout.
        -- exists [EvProcess e c1 (relayServer c1) (Some err)].
           cbn [final events]. split; [reflexivity|]. split.
           ++ cbn [forallb]. subst c1. rewrite cursorSet_call. reflexivity.
           ++ exists [], e, c1, (relayServer c1). split; reflexivity.
        -- destruct (IH (mkWorld c2 (events w ++
                       [EvProcess e c1 (relayServer c1) None])))
             as (calls & Hev & Hcur & Hres).
           exists (EvProcess e c1 (relayServer c1) None :: calls).
           cbn [events] in Hev. split.
           { rewrite Hev, <- app_assoc. reflexivity. }
           split.
           { cbn [forallb]. rewrite Hcur, andb_true_r. subst c1.
             apply cursorSet_call. }
           destruct (getStreaming n _) as [err w'|w'|w'|w'].
           ++ destruct Hres as (calls0 & e0 & c0 & s0 & -> & Hacc).
              exists (EvProcess e c1 (relayServer c1) None :: calls0), e0, c0, s0.
              split; [reflexivity|]. cbn [forallb accepted]. exact Hacc.
           ++ destruct Hres as [Hacc Hq']. split; [|exact Hq'].
              cbn [forallb accepted]. exact Hacc.
           ++ exact Hres.
           ++ destruct Hres as [Hacc Hlen]. split.
              ** cbn [forallb accepted]. exact Hacc.
              ** cbn [length]. rewrite Hlen. reflexivity.
Qed.

Lemma cursors_app a b : cursors (a ++ b) = cursors a ++ cursors b.
Proof. unfold cursors. apply flat_map_app. Qed.


(** ** The connection manager *)

Lemma closeConnection_eq w : closeConnection w = Done tt (closedWorld w).
Proof.
  unfold closeConnection, closedWorld, bind, getClient, emit, modifyClient, ret.
  destruct (conn (client w)); reflexivity.
Qed.

Lemma connectServer_connected ds w :
  connected (client w) = true -> connectServer ds w = Done (false, ds) w.
Proof. intros H. destruct ds as [|[e|k] ds]; simpl; rewrite H; reflexivity. Qed.

Lemma connectServer_dial_err e ds w :
  connected (client w) = false ->
  connectServer (DialErr e :: ds) w = connectServer ds (undialled w).
Proof.
  intros H. cbn [connectServer]. rewrite H.
  unfold bind, emit, modifyClient, Sleep, emit. cbn [client events].
  unfold undialled. rewrite <- app_assoc. reflexivity.
Qed.

Lemma connectServer_dial_ok k ds w :
  connected (client w) = false ->
  connectServer (DialOk k :: ds) w =
  if streaming (client w) then
    match execCommand CmdStart true (nextEntry (client w)) [] (dialled k w) with
    | Done (_, _, Some _) w2 => connectServer ds (slept (closedWorld w2))
    | Done (_, _, None) w2 => Done (true, ds) w2
    | Blocked w2 => Blocked w2
    | Panicked w2 => Panicked w2
    | Unfinished w2 => Unfinished w2
    end
  else Done (false, ds) (dialled k w).
Proof.
  intros H. cbn [connectServer]. rewrite H.
  unfold bind at 1. unfold emit at 1.
  unfold bind at 1. unfold modifyClient at 1. cbn [client events].
  unfold bind at 1. unfold modifyClient at 1. cbn [client events].
  unfold bind at 1. unfold modifyClient at 1. cbn [client events].
  unfold bind at 1. unfold getClient at 1. cbn [client events].
  fold (dialled k w).
  change (streaming (set_ID (localAddr k)
            (set_connected true (set_conn (Some k) (client w)))))
    with (streaming (client w)).
  change (nextEntry (set_ID (localAddr k)
            (set_connected true (set_conn (Some k) (client w)))))
    with (nextEntry (client w)).
  destruct (streaming (client w)); [|reflexivity].
  unfold bind at 1.
  destruct (execCommand CmdStart true (nextEntry (client w)) [] (dialled k w))
    as [[[h e0] [err|]] w2|w2|w2|w2]; try reflexivity.
  unfold bind at 1. rewrite closeConnection_eq.
  unfold bind at 1. unfold Sleep, emit, ret. reflexivity.
Qed.

(** The deferred Start of a resume, on the connection just dialled. *)
Lemma resume_command k w :
  started (client w) = true ->
  execCommand CmdStart true (nextEntry (client w)) [] (dialled k w) =
  let bufs := [PutUint64 CmdStart; PutUint64 (streamType (client w));
               PutUint64 (nextEntry (client w))] in
  match writeAll bufs k with
  | (k', Some e) =>
      Done (zeroHeader, zeroEntry, Some e) (with_conn k' (dialled k w))
  | (k', None) =>
      Done (zeroHeader, zeroEntry, None)
        (mkWorld (set_fromStream (nextEntry (client w))
                    (set_streaming true (client (with_conn k' (dialled k w)))))
                 (events (dialled k w)))
  end.
Proof.
  intros Hs.
  rewrite (execCommand_writes CmdStart true _ [] (dialled k w) k Hs
             IsACommand_Start eq_refl).
  unfold paramsOf. cmd_eqb. cbn [orb commandWrites paramWrites].
  cbv zeta. change (streamType (client (dialled k w))) with (streamType (client w)).
  destruct (writeAll _ k) as [k' [e|]]; [reflexivity|].
  unfold awaitResult, bind. unfold ret at 1. unfold afterResult. cmd_eqb.
  reflexivity.
Qed.

Lemma connectServer_returns_connected ds : forall w b ds' w',
  connectServer ds w = Done (b, ds') w' -> connected (client w') = true.
Proof.
  induction ds as [|[e|k] ds IH]; intros w b ds' w' H.
  - simpl in H. destruct (connected (client w)) eqn:E; [|discriminate].
    injection H as _ _ <-. exact E.
  - destruct (connected (client w)) eqn:E.
    + rewrite connectServer_connected in H by exact E.
      injection H as _ _ <-. exact E.
    + rewrite connectServer_dial_err in H by exact E. eauto.
  - destruct (connected (client w)) eqn:E.
    + rewrite connectServer_connected in H by exact E.
      injection H as _ _ <-. exact E.
    + rewrite connectServer_dial_ok in H by exact E.
      destruct (streaming (client w)).
      * destruct (execCommand CmdStart true (nextEntry (client w)) []
                    (dialled k w)) as [[[h e0] [err|]] w2|w2|w2|w2] eqn:Ex;
          try discriminate.
        -- eauto.
        -- injection H as _ _ <-.
           assert (Hc : connected (client (final
                     (execCommand CmdStart true (nextEntry (client w)) []
                        (dialled k w)))) = true).
           { unfold execCommand, bind at 1, getClient.
             destruct (negb (started (client (dialled k w)))); [reflexivity|].
             rewrite IsACommand_Start. cbn [negb].
             unfold bind at 1. rewrite (onConn_write64 _ (dialled k w) k eq_refl).
             destruct (conn_Write (PutUint64 CmdStart) k) as [k1 [e1|]];
               cbn [fst snd]; [reflexivity|].
             unfold bind at 1.
             rewrite (onConn_write64 _ (with_conn k1 (dialled k w)) k1 eq_refl).
             destruct (conn_Write (PutUint64 _) k1) as [k2 [e2|]];
               cbn [fst snd]; [reflexivity|].
             unfold bind at 1.
             rewrite (sendParams_writes CmdStart _ []
                        (with_conn k2 (with_conn k1 (dialled k w))) k2
                        IsACommand_Start eq_refl).
             destruct (writeAll _ k2) as [k3 [e3|]]; cbn [fst snd];
               [reflexivity|].
             unfold awaitResult, bind. unfold ret at 1. unfold afterResult.
             cmd_eqb. reflexivity. }
           rewrite Ex in Hc. exact Hc.
      * injection H as _ _ <-. reflexivity.
Qed.

Lemma connectServer_total ds : forall w,
  (streaming (client w) = true -> started (client w) = true) ->
  existsb sound ds = true ->
  exists b ds' w', connectServer ds w = Done (b, ds') w'.
Proof.
  induction ds as [|[e|k] ds IH]; intros w Hinv Hex.
  - discriminate.
  - destruct (connected (client w)) eqn:E.
    + rewrite connectServer_connected by exact E. eauto.
    + rewrite connectServer_dial_err by exact E.
      apply IH; [exact Hinv | exact Hex].
  - destruct (connected (client w)) eqn:E.
    + rewrite connectServer_connected by exact E. eauto.
    + rewrite connectServer_dial_ok by exact E.
      destruct (streaming (client w)) eqn:Es; [|eauto].
      rewrite (resume_command k w (Hinv eq_refl)). cbv zeta.
      destruct (writeAll _ k) as [k' [err|]] eqn:Ew; [|eauto].
      cbn [existsb sound] in Hex.
      destruct (negb (closed k) && writes_ok 3 (writes k)) eqn:Ek.
      * apply andb_true_iff in Ek. destruct Ek as [Hc Hw].
        apply negb_true_iff in Hc.
        rewrite (writeAll_ok [_; _; _] k Hc Hw) in Ew. discriminate.
      * apply IH; [|exact Hex].
        unfold slept, closedWorld, with_conn, dialled.
        cbn [client conn set_conn set_ID set_connected events].
        cbn [streaming started set_connected set_conn].
        intros _. apply Hinv. reflexivity.
Qed.

Lemma connectServer_resume_ok k ds w :
  connected (client w) = false ->
  streaming (client w) = true ->
  started (client w) = true ->
  closed k = false ->
  writes_ok 3 (writes k) = true ->
  exists k' w',
    connectServer (DialOk k :: ds) w = Done (true, ds) w' /\
    conn (client w') = Some k' /\
    wire k' = wire k ++ PutUint64 CmdStart
                   ++ PutUint64 (streamType (client w))
                   ++ PutUint64 (nextEntry (client w)) /\
    streaming (client w') = true /\
    fromStream (client w') = nextEntry (client w) /\
    nextEntry (client w') = nextEntry (client w) /\
    results (client w') = results (client w) /\
    events w' = events w ++ [EvDial (server (client w))].
Proof.
  intros Hc Hs Hst Hcl Hw.
  rewrite connectServer_dial_ok by exact Hc. rewrite Hs.
  rewrite (resume_command k w Hst). cbv zeta.
  rewrite (writeAll_ok [_; _; _] k Hcl Hw).
  eexists. eexists. split; [reflexivity|].
  cbn [client with_conn set_conn set_streaming set_fromStream conn].
  split; [reflexivity|]. split.
  { unfold sent. cbn [wire concat]. rewrite app_nil_r. reflexivity. }
  repeat split.
Qed.

(** A resume has gone out only from a started client, and leaves streaming
    set. *)
Lemma connectServer_true ds : forall w ds' w',
  connectServer ds w = Done (true, ds') w' ->
  streaming (client w') = true /\ started (client w') = true.
Proof.
  induction ds as [|[e|k] ds IH]; intros w ds' w' H.
  - simpl in H. destruct (connected (client w)); discriminate.
  - destruct (connected (client w)) eqn:E.
    + rewrite connectServer_connected in H by exact E. discriminate.
    + rewrite connectServer_dial_err in H by exact E. eauto.
  - destruct (connected (client w)) eqn:E.
    + rewrite connectServer_connected in H by exact E. discriminate.
    + rewrite connectServer_dial_ok in H by exact E.
      destruct (streaming (client w)); [|discriminate].
      destruct (started (client w)) eqn:Es.
      * rewrite (resume_command k w Es) in H. cbv zeta in H.
        destruct (writeAll _ k) as [k' [err|]]; [eauto|].
        injection H as _ <-. split; [reflexivity|exact Es].
      * unfold execCommand, bind, getClient in H.
        change (started (client (dialled k w))) with (started (client w)) in H.
        rewrite Es in H. cbn [negb] in H. unfold ret in H. eauto.
Qed.

(** C3.  connectServer has no error result, and a world in which it has
    returned has the client connected.  A Dial that fails is followed by
    the wait of defaultTimeout and the next Dial.  A Dial that succeeds
    while streaming is not set returns false with nothing written.  A Dial
    that succeeds while streaming is set puts a Start on the new
    connection at once, with fromEntry the cursor nextEntry, without taking
    any result from the queue, and returns true; when a write of this Start
    fails the connection is closed and, after the wait of defaultTimeout,
    the next Dial follows.  On every script with a sound outcome the
    function returns. *)
Theorem connectServer_resumes (ds : list DialOutcome) (w : World) :
  (forall b ds' w',
     connectServer ds w = Done (b, ds') w' -> connected (client w') = true) /\
  (forall e,
     connected (client w) = false ->
     connectServer (DialErr e :: ds) w = connectServer ds (undialled w)) /\
  (forall k,
     connected (client w) = false ->
     streaming (client w) = false ->
     connectServer (DialOk k :: ds) w = Done (false, ds) (dialled k w)) /\
  (forall k,
     connected (client w) = false ->
     streaming (client w) = true ->
     started (client w) = true ->
     closed k = false ->
     writes_ok 3 (writes k) = true ->
     exists k' w',
       connectServer (DialOk k :: ds) w = Done (true, ds) w' /\
       conn (client w') = Some k' /\
       wire k' = wire k ++ PutUint64 CmdStart
                      ++ PutUint64 (streamType (client w))
                      ++ PutUint64 (nextEntry (client w)) /\
       streaming (client w') = true /\
       fromStream (client w') = nextEntry (client w) /\
       nextEntry (client w') = nextEntry (client w) /\
       results (client w') = results (client w) /\
       events w' = events w ++ [EvDial (server (client w))]) /\
  (forall k j n e rest,
     connected (client w) = false ->
     streaming (client w) = true ->
     started (client w) = true ->
     closed k = false ->
     writes k = repeat WriteOk j ++ WriteErr n e :: rest ->
     (j < 3)%nat ->
     exists w2,
       connectServer (DialOk k :: ds) w = connectServer ds w2 /\
       option_map closed (conn (client w2)) = Some true /\
       connected (client w2) = false /\
       streaming (client w2) = true /\
       nextEntry (client w2) = nextEntry (client w) /\
       events w2 = events w ++ [EvDial (server (client w)); EvClose;
                                EvSleep defaultTimeout]) /\
  ((streaming (client w) = true -> started (client w) = true) ->
   existsb sound ds = true ->
   exists b ds' w', connectServer ds w = Done (b, ds') w').
Proof.
  split; [|split; [|split; [|split; [|split]]]].
  - apply connectServer_returns_connected.
  - intros e Hc. apply connectServer_dial_err. exact Hc.
  - intros k Hc Hs. rewrite connectServer_dial_ok by exact Hc.
    rewrite Hs. reflexivity.
  - intros k. apply connectServer_resume_ok.
  - intros k j n e rest Hc Hs Hst Hcl Hw Hj.
    rewrite connectServer_dial_ok by exact Hc. rewrite Hs.
    rewrite (resume_command k w Hst). cbv zeta.
    rewrite (writeAll_fail j [_; _; _] k n e rest Hcl Hw Hj).
    eexists. split; [reflexivity|].
    unfold slept, closedWorld, with_conn, dialled.
    cbn [client conn set_conn set_ID set_connected events option_map].
    repeat split.
    + exact Hs.
    + rewrite <- !app_assoc. reflexivity.
  - apply connectServer_total.
Qed.

(** ** The packet dispatcher *)

Lemma firstn_exact {A} (a b : list A) : firstn (length a) (a ++ b) = a.
Proof. induction a as [|x a IH]; simpl; [destruct b|]; congruence. Qed.

Lemma skipn_exact {A} (a b : list A) : skipn (length a) (a ++ b) = b.
Proof. induction a as [|x a IH]; simpl; auto. Qed.

Lemma advance_0 k : advance 0 k = k.
Proof. destruct k; reflexivity. Qed.

Lemma advance_advance n m k : advance m (advance n k) = advance (n + m) k.
Proof.
  unfold advance. simpl. f_equal.
  revert n. generalize (incoming k) as l.
  induction l as [|x l IH]; intros [|n]; simpl; auto.
  - destruct m; reflexivity.
Qed.

Lemma ReadFull_ok n w k :
  conn (client w) = Some k ->
  closed k = false ->
  (n <= length (incoming k))%nat ->
  ReadFull n w = Done (firstn n (incoming k), None) (with_conn (advance n k) w).
Proof.
  intros Hk Hc Hn. unfold ReadFull. rewrite Hk.
  destruct n as [|n].
  - rewrite advance_0, with_conn_same by exact Hk. reflexivity.
  - unfold conn_ReadFull. rewrite Hc.
    destruct (Nat.leb_spec (S n) (length (incoming k))); [|lia].
    unfold with_conn, advance. rewrite Hc. reflexivity.
Qed.

Lemma readResultEntry_ok w k fixed aux more :
  conn (client w) = Some k ->
  closed k = false ->
  incoming k = fixed ++ aux ++ more ->
  length fixed = Z.to_nat (FixedSizeResultEntry - 1) ->
  FixedSizeResultEntry <= Uint32 (firstn 4 fixed) ->
  length aux = Z.to_nat (Uint32 (firstn 4 fixed) - FixedSizeResultEntry) ->
  readResultEntry w =
  Done (DecodeBinaryToResultEntry (PtResult :: fixed ++ aux))
       (with_conn (advance (length fixed + length aux) k) w).
Proof.
  intros Hk Hc Hin Hfix Hlen Haux. unfold readResultEntry.
  unfold bind at 1. rewrite <- Hfix.
  rewrite (ReadFull_ok (length fixed) w k Hk Hc)
    by (rewrite Hin, length_app; lia).
  rewrite Hin, firstn_exact. cbn [skipn].
  destruct (Z.ltb_spec (Uint32 (firstn 4 fixed)) FixedSizeResultEntry); [lia|].
  unfold bind at 1. unfold readContent. rewrite <- Haux.
  rewrite (ReadFull_ok (length aux) (with_conn (advance (length fixed) k) w)
             (advance (length fixed) k) eq_refl Hc).
  2: { cbn [advance incoming]. rewrite Hin, skipn_exact, length_app. lia. }
  cbn [advance incoming]. rewrite Hin, skipn_exact, firstn_exact.
  unfold ret.
  change (PtResult :: fixed ++ aux) with ((PtResult :: fixed) ++ aux).
  f_equal. rewrite advance_advance. reflexivity.
Qed.

(** * Further properties of the code *)

(** ** Closing the connection *)

(** X1.  closeConnection always returns, and leaves the client not
    connected with its connection, when there is one, closed; with no
    connection it only clears the flag.  Closing twice leaves the client as
    closing once does, and no queue, cursor or flag other than connected is
    touched. *)
Theorem closeConnection_idempotent (w : World) :
  exists w1 w2,
    closeConnection w = Done tt w1 /\
    closeConnection w1 = Done tt w2 /\
    client w2 = client w1 /\
    connected (client w1) = false /\
    option_map closed (conn (client w1)) =
      option_map (fun _ => true) (conn (client w)) /\
    option_map wire (conn (client w1)) = option_map wire (conn (client w)) /\
    (conn (client w) = None ->
     client w1 = set_connected false (client w) /\ events w1 = events w) /\
    queues (client w1) = queues (client w) /\
    streaming (client w1) = streaming (client w) /\
    started (client w1) = started (client w) /\
    nextEntry (client w1) = nextEntry (client w).
Proof.
  exists (closedWorld w), (closedWorld (closedWorld w)).
  rewrite !closeConnection_eq.
  split; [reflexivity|]. split; [reflexivity|].
  unfold closedWorld.
  destruct (conn (client w)) as [k|] eqn:Hk;
    cbn [client conn set_connected set_conn];
    [|rewrite Hk; cbn [client]].
  - repeat split; congruence.
  - repeat split; rewrite ?Hk; reflexivity.
Qed.

(** X2.  After closeConnection a command of a started client on the closed
    connection fails with the error of the first write; nothing is written
    and, although the command is not deferred, no result is taken from the
    queue. *)
Theorem execCommand_after_close (cmd : Z) (d : bool) (fe : Z)
    (fb : list byte) (w : World) (k : Conn) :
  started (client w) = true ->
  IsACommand cmd = true ->
  conn (client w) = Some k ->
  exists w1,
    closeConnection w = Done tt w1 /\
    execCommand cmd d fe fb w1 =
      Done (zeroHeader, zeroEntry, Some ErrClosed) w1 /\
    option_map wire (conn (client w1)) = Some (wire k) /\
    results (client w1) = results (client w).
Proof.
  intros Hs Hcmd Hk. exists (closedWorld w).
  rewrite closeConnection_eq. split; [reflexivity|].
  unfold closedWorld. rewrite Hk.
  split; [|split; reflexivity].
  set (w1 := mkWorld (set_connected false
                        (set_conn (Some (conn_Close k)) (client w)))
                     (events w ++ [EvClose])).
  rewrite (execCommand_writes cmd d fe fb w1 (conn_Close k) Hs Hcmd eq_refl).
  unfold commandWrites. rewrite (writeAll_closed _ _ (conn_Close k) eq_refl).
  rewrite with_conn_same by reflexivity. reflexivity.
Qed.

(** ** Commands without a connection *)

Lemma execCommand_nil_conn cmd d fe fb w :
  started (client w) = true ->
  IsACommand cmd = true ->
  conn (client w) = None ->
  execCommand cmd d fe fb w = Panicked w.
Proof.
  intros Hs Hcmd Hk. unfold execCommand, bind at 1, getClient.
  rewrite Hs, Hcmd. cbn [negb]. unfold bind at 1.
  unfold onConn, writeFullUint64, write_or_nil. rewrite Hk.
  cbn [report_write RemoteAddr option_map].
  destruct w as [c evs]. cbn [client events] in *.
  destruct c; cbn in Hk; subst; reflexivity.
Qed.

(** X3.  A known command issued on a started client whose connection is nil
    panics in its first write and returns nothing.  The connection is nil
    after a Dial that failed: while connectServer is still retrying, every
    command of the client panics. *)
Theorem execCommand_panics_while_redialing (cmd : Z) (d : bool) (fe : Z)
    (fb : list byte) (w : World) :
  started (client w) = true ->
  IsACommand cmd = true ->
  (conn (client w) = None -> execCommand cmd d fe fb w = Panicked w) /\
  (forall e,
     connected (client w) = false ->
     exists w',
       connectServer [DialErr e] w = Unfinished w' /\
       execCommand cmd d fe fb w' = Panicked w').
Proof.
  intros Hs Hcmd. split.
  - apply execCommand_nil_conn; assumption.
  - intros e Hc. exists (undialled w).
    rewrite connectServer_dial_err by exact Hc.
    split.
    + cbn [connectServer]. unfold undialled. cbn [client connected set_conn].
      rewrite Hc. reflexivity.
    + apply execCommand_nil_conn; [exact Hs | exact Hcmd | reflexivity].
Qed.

(** ** What a command leaves alone *)

Lemma sameSession_refl c : sameSession c c.
Proof. repeat split. Qed.

Lemma awaitResult_sameSession cmd d fe w :
  sameSession (client w) (client (final (awaitResult cmd d fe w))).
Proof.
  unfold awaitResult, afterResult, bind, getResult, getHeader, getEntry,
    recv, ret, modifyClient.
  destruct d; cbn [final client].
  2: destruct (results (client w)) as [|r q]; [apply sameSession_refl|];
     cbn [final client];
     destruct (negb (errorNum r =? CmdErrOK)); [repeat split|].
  all: repeat match goal with
       | |- context [if ?b then _ else _] => destruct b
       | |- context [match ?l with [] => _ | _ :: _ => _ end] => destruct l
       end; repeat split.
Qed.

Lemma execCommand_sameSession cmd d fe fb w :
  sameSession (client w) (client (final (execCommand cmd d fe fb w))).
Proof.
  destruct (started (client w)) eqn:Hs.
  2: { unfold execCommand, bind at 1, getClient. rewrite Hs.
       apply sameSession_refl. }
  destruct (IsACommand cmd) eqn:Hcmd.
  2: { unfold execCommand, bind at 1, getClient. rewrite Hs, Hcmd.
       apply sameSession_refl. }
  destruct (conn (client w)) as [k|] eqn:Hk.
  - rewrite (execCommand_writes cmd d fe fb w k Hs Hcmd Hk).
    destruct (writeAll _ k) as [k' [e|]]; [repeat split|].
    pose proof (awaitResult_sameSession cmd d fe (with_conn k' w)) as H.
    exact H.
  - rewrite (execCommand_nil_conn cmd d fe fb w Hs Hcmd Hk).
    apply sameSession_refl.
Qed.

(** X4.  Whatever its arguments and however it ends (returning, blocked on
    a queue or panicking), execCommand leaves the session of the client
    alone: the started and connected flags, the resume cursor nextEntry,
    the queue of streaming entries, the registered callback and relay
    server, and the server address, stream type and ID. *)
Theorem execCommand_keeps_session (cmd : Z) (d : bool) (fe : Z)
    (fb : list byte) (w : World) :
  sameSession (client w) (client (final (execCommand cmd d fe fb w))) /\
  events (final (execCommand cmd d fe fb w)) = events w.
Proof.
  split; [apply execCommand_sameSession|].
  destruct (started (client w)) eqn:Hs.
  2: { unfold execCommand, bind at 1, getClient. rewrite Hs. reflexivity. }
  destruct (IsACommand cmd) eqn:Hcmd.
  2: { unfold execCommand, bind at 1, getClient. rewrite Hs, Hcmd. reflexivity. }
  destruct (conn (client w)) as [k|] eqn:Hk.
  - rewrite (execCommand_writes cmd d fe fb w k Hs Hcmd Hk).
    destruct (writeAll _ k) as [k' [e|]]; [reflexivity|].
    unfold awaitResult, afterResult, bind, getResult, getHeader, getEntry,
      recv, ret, modifyClient.
    destruct d; cbn [final client events with_conn].
    2: destruct (results _) as [|r q]; [reflexivity|];
       cbn [final client events];
       destruct (negb (errorNum r =? CmdErrOK)); [reflexivity|].
    all: repeat match goal with
         | |- context [if ?b then _ else _] => destruct b
         | |- context [match ?l with [] => _ | _ :: _ => _ end] => destruct l
         end; reflexivity.
  - rewrite (execCommand_nil_conn cmd d fe fb w Hs Hcmd Hk). reflexivity.
Qed.

(** X5.  Streaming is set only on a started client: the client NewClient
    returns is neither, and a command run on a client for which streaming
    implies started ends, however it ends, on such a client. *)
Theorem streaming_needs_started (srv : string) (st : Z) (cmd : Z) (d : bool)
    (fe : Z) (fb : list byte) (w : World) :
  streaming (NewClient srv st) = false /\
  started (NewClient srv st) = false /\
  ((streaming (client w) = true -> started (client w) = true) ->
   streaming (client (final (execCommand cmd d fe fb w))) = true ->
   started (client (final (execCommand cmd d fe fb w))) = true).
Proof.
  split; [reflexivity|]. split; [reflexivity|].
  intros Hinv. rewrite execCommand_started.
  destruct (started (client w)) eqn:Hs; [reflexivity|].
  unfold execCommand, bind at 1, getClient. rewrite Hs. cbn [negb].
  unfold ret. cbn [final]. exact Hinv.
Qed.

(** ** Dialling *)

Lemma connectServer_retries fails : forall w rest,
  connected (client w) = false ->
  forallb failed fails = true ->
  connectServer (fails ++ rest) w =
  connectServer rest (retried (length fails) w).
Proof.
  induction fails as [|[e|k] fails IH]; intros w rest Hc Hf.
  - unfold retried. cbn [length retryEvents app]. rewrite app_nil_r.
    destruct w; reflexivity.
  - cbn [forallb failed andb] in Hf. cbn [app].
    rewrite connectServer_dial_err by exact Hc.
    rewrite (IH (undialled w) rest Hc Hf).
    f_equal. unfold retried, undialled. cbn [client events server set_conn length].
    rewrite <- app_assoc. cbn [app retryEvents].
    destruct (length fails); reflexivity.
  - discriminate.
Qed.

(** X6.  While every Dial fails connectServer does not return: after each
    failed attempt it waits defaultTimeout and dials again, with no other
    change to the client than its connection, which is nil from the first
    failure on.  There is no bound on the attempts and the wait does not
    grow. *)
Theorem connectServer_keeps_retrying (ds : list DialOutcome) (w : World) :
  connected (client w) = false ->
  forallb failed ds = true ->
  connectServer ds w = Unfinished (retried (length ds) w) /\
  events (retried (length ds) w) =
    events w ++ retryEvents (server (client w)) (length ds) /\
  (ds <> [] ->
   client (retried (length ds) w) = set_conn None (client w)).
Proof.
  intros Hc Hf. split; [|split].
  - rewrite <- (app_nil_r ds) at 1.
    rewrite (connectServer_retries ds w [] Hc Hf).
    cbn [connectServer]. unfold retried at 1. cbn [client].
    destruct (length ds); cbn [connected set_conn]; rewrite Hc; reflexivity.
  - reflexivity.
  - intros Hne. destruct ds; [contradiction|reflexivity].
Qed.

(** ** Start *)

(** X7.  Start on a client that is not connected and not streaming (as
    NewClient returns it), against a server that refuses some attempts and
    then accepts: Start returns nil with the client started and connected
    on the connection it was given, its ID the local address, and nothing
    written to the connection; the attempts before show as a Dial and a
    wait each.  Whenever Start returns, it returns nil and the client is
    started and connected. *)
Theorem Start_connects (fails ds : list DialOutcome) (k : Conn) (w : World) :
  connected (client w) = false ->
  streaming (client w) = false ->
  forallb failed fails = true ->
  Start (fails ++ DialOk k :: ds) w =
    Done (None, ds)
      (mkWorld (set_started true
                  (set_ID (localAddr k)
                     (set_connected true (set_conn (Some k) (client w)))))
               (events w ++ retryEvents (server (client w)) (length fails)
                         ++ [EvDial (server (client w))])) /\
  (forall ds0 w0 r w',
     Start ds0 w0 = Done r w' ->
     fst r = None /\
     started (client w') = true /\ connected (client w') = true).
Proof.
  intros Hc Hs Hf. split.
  - unfold Start, bind at 1.
    rewrite (connectServer_retries fails w (DialOk k :: ds) Hc Hf).
    rewrite connectServer_dial_ok
      by (unfold retried; destruct (length fails); exact Hc).
    replace (streaming (client (retried (length fails) w))) with false
      by (unfold retried; destruct (length fails); cbn; rewrite Hs; reflexivity).
    unfold bind, modifyClient, ret. cbn [snd client events dialled].
    f_equal. unfold retried. cbn [client events].
    rewrite <- app_assoc.
    destruct (length fails); reflexivity.
  - intros ds0 w0 r w' H. unfold Start, bind at 1 in H.
    destruct (connectServer ds0 w0) as [[b ds1] w1|w1|w1|w1] eqn:E;
      try discriminate.
    unfold bind, modifyClient, ret in H. injection H as <- <-.
    cbn [fst client]. split; [reflexivity|]. split; [reflexivity|].
    cbn [connected set_started].
    exact (connectServer_returns_connected ds0 w0 b ds1 w1 E).
Qed.

(** ** The facade *)

Lemma writes_ok_skipn n : forall m ws,
  writes_ok (n + m) ws = true -> writes_ok m (skipn n ws) = true.
Proof.
  induction n as [|n IH]; intros m ws H; [exact H|].
  destruct ws as [|[|j e] ws]; cbn [Nat.add writes_ok skipn] in *.
  - destruct m; reflexivity.
  - apply IH. exact H.
  - discriminate.
Qed.

(** X8.  ExecCommandStart(K) followed by ExecCommandStop(), each answered
    OK: both return nil; streaming is set after the first and cleared
    after the second, while GetFromStream keeps returning K; the two
    results are taken from the queue in order; the line carries the
    Start frame followed by the Stop frame. *)
Theorem start_then_stop (K : Z) (w : World) (k : Conn)
    (r1 r2 : ResultEntry) (q : list ResultEntry) :
  started (client w) = true ->
  conn (client w) = Some k ->
  closed k = false ->
  writes_ok 5 (writes k) = true ->
  results (client w) = r1 :: r2 :: q ->
  errorNum r1 = CmdErrOK ->
  errorNum r2 = CmdErrOK ->
  exists w1 w2 k2,
    ExecCommandStart K w = Done None w1 /\
    streaming (client w1) = true /\
    GetFromStream (client w1) = K /\
    ExecCommandStop w1 = Done None w2 /\
    streaming (client w2) = false /\
    GetFromStream (client w2) = K /\
    results (client w2) = q /\
    conn (client w2) = Some k2 /\
    wire k2 = wire k ++ PutUint64 CmdStart ++ PutUint64 (streamType (client w))
                     ++ PutUint64 K
                     ++ PutUint64 CmdStop ++ PutUint64 (streamType (client w)).
Proof.
  intros Hs Hk Hc Hw Hr H1 H2.
  apply Z.eqb_eq in H1. apply Z.eqb_eq in H2.
  unfold ExecCommandStart, ExecCommandStop.
  unfold bind at 1.
  rewrite (execCommand_writes CmdStart false K [] w k Hs IsACommand_Start Hk).
  unfold paramsOf. cmd_eqb. cbn [orb]. unfold commandWrites, paramWrites.
  rewrite (writeAll_ok [_; _; _] k Hc (writes_ok_le 3 5 _ ltac:(lia) Hw)).
  unfold awaitResult, bind, getResult, recv. cbn [client with_conn].
  cbn [set_conn results]. rewrite Hr. unfold ret at 1. rewrite H1. cbn [negb].
  unfold afterResult. cmd_eqb. unfold bind, modifyClient, ret.
  cbn [client events snd].
  eexists. eexists. eexists.
  split; [reflexivity|]. split; [reflexivity|]. split; [reflexivity|].
  match goal with
  | |- context [execCommand CmdStop false 0 [] ?w1] =>
      rewrite (execCommand_writes CmdStop false 0 [] w1
                 (sent [PutUint64 CmdStart; PutUint64 (streamType (client w));
                        PutUint64 K] k)
                 Hs IsACommand_Stop eq_refl)
  end.
  unfold paramsOf. cmd_eqb. cbn [orb]. unfold commandWrites, paramWrites.
  rewrite (writeAll_ok [_; _] (sent _ k) eq_refl)
    by (cbn [sent writes length]; apply (writes_ok_skipn 3 2); exact Hw).
  unfold awaitResult, bind, getResult, recv, ret.
  cbn [client with_conn set_conn set_fromStream set_streaming set_results
       results events].
  rewrite H2. cbn [negb]. unfold afterResult. cmd_eqb.
  unfold bind, modifyClient, ret. cbn [snd client events].
  split; [reflexivity|]. split; [reflexivity|]. split; [reflexivity|].
  split; [reflexivity|]. split; [reflexivity|].
  unfold sent. cbn [wire concat]. rewrite !app_nil_r, <- !app_assoc.
  reflexivity.
Qed.

(** ** The frame read back *)

(** X9.  What a command of a client that can send leaves on a fresh line,
    read back as a peer would read it with BigEndian.Uint64 and
    BigEndian.Uint32: the first 8 bytes give the opcode and the next 8 the
    stream type (as uint64 values); for Start and Entry the next 8 give the
    entry index and the frame ends there; for StartBookmark and Bookmark
    the next 4 give the length of the bookmark as a uint32 and the rest is
    the bookmark itself; for Stop and Header the frame ends after the
    stream type. *)
Theorem frame_read_back (cmd : Z) (d : bool) (fe : Z) (fb : list byte)
    (w : World) (k : Conn) :
  can_send w = true ->
  IsACommand cmd = true ->
  conn (client w) = Some k ->
  wire k = [] ->
  exists k',
    conn (client (final (execCommand cmd d fe fb w))) = Some k' /\
    Uint64 (wire k') = wrap64 cmd /\
    Uint64 (skipn 8 (wire k')) = wrap64 (streamType (client w)) /\
    (cmd = CmdStart \/ cmd = CmdEntry ->
     Uint64 (skipn 16 (wire k')) = wrap64 fe /\ length (wire k') = 24%nat) /\
    (cmd = CmdStartBookmark \/ cmd = CmdBookmark ->
     Uint32 (skipn 16 (wire k')) = wrap32 (Z.of_nat (length fb)) /\
     skipn 20 (wire k') = fb) /\
    (cmd = CmdStop \/ cmd = CmdHeader -> length (wire k') = 16%nat).
Proof.
  intros Hcs Hcmd Hk Hwire.
  destruct (execCommand_sent cmd d fe fb w Hcs Hcmd) as (k0 & Hk0 & ->).
  rewrite Hk in Hk0. injection Hk0 as <-.
  rewrite awaitResult_conn. cbn [with_conn client conn set_conn].
  eexists. split; [reflexivity|].
  unfold sent. cbn [wire]. rewrite Hwire. cbn [app].
  unfold commandWrites. cbn [concat].
  pose proof (Uint64_PutUint64 cmd) as E1.
  pose proof (Uint64_PutUint64 (streamType (client w))) as E2.
  pose proof (Uint64_PutUint64 fe) as E3.
  pose proof (Uint32_PutUint32 (wrap32 (Z.of_nat (length fb)))) as E4.
  unfold PutUint64, PutUint32 in *. cbn [app skipn].
  split; [exact E1|]. split; [exact E2|].
  unfold paramsOf.
  split; [|split].
  - intros [-> | ->]; cmd_eqb; cbn [orb paramWrites concat app length].
    + split; [exact E3 | reflexivity].
    + split; [exact E3 | reflexivity].
  - intros [-> | ->]; cmd_eqb; cbn [orb paramWrites concat app skipn].
    + rewrite app_nil_r. split; [|reflexivity].
      unfold wrap32 in E4 |- *. rewrite Z.mod_mod in E4 by lia.
      exact E4.
    + rewrite app_nil_r. split; [|reflexivity].
      unfold wrap32 in E4 |- *. rewrite Z.mod_mod in E4 by lia.
      exact E4.
  - intros [-> | ->]; cmd_eqb; reflexivity.
Qed.

(** ** The consumer with the default callback *)

Lemma last_cons {A} (l : list A) : forall x d, last (x :: l) d = last l x.
Proof.
  induction l as [|y l IH]; intros x d; [reflexivity|].
  change (last (x :: y :: l) d) with (last (y :: l) d).
  rewrite (IH y d), (IH y x). reflexivity.
Qed.

Lemma delivered_app a b : delivered (a ++ b) = delivered a ++ delivered b.
Proof. unfold delivered. apply flat_map_app. Qed.

Lemma getStreaming_default es : forall w n,
  processEntry (client w) = FnPrintReceivedEntry ->
  entries (client w) = es ->
  (length es < n)%nat ->
  exists w',
    getStreaming n w = Blocked w' /\
    entries (client w') = [] /\
    nextEntry (client w') = cursorAfter (nextEntry (client w)) es /\
    onlyConsumed (client w) (client w') /\
    delivered (events w') = delivered (events w) ++ es.
Proof.
  induction es as [|e q IH]; intros w n Hf Hes Hn.
  - destruct n as [|n]; [simpl in Hn; lia|].
    exists w. rewrite (getStreaming_empty n w Hes).
    rewrite app_nil_r. repeat split. exact Hes.
  - destruct n as [|n]; [simpl in Hn; lia|].
    rewrite (getStreaming_turn n w e q Hes). cbv zeta.
    cbn [processEntry set_nextEntry set_entries]. rewrite Hf.
    cbn [callFunc PrintReceivedEntry].
    match goal with
    | |- context [getStreaming n ?w2] =>
        destruct (IH w2 n) as (w' & Hrun & Hq & Hcur & Hkeep & Hdel)
    end.
    + exact Hf.
    + reflexivity.
    + simpl in Hn. lia.
    + exists w'. split; [exact Hrun|]. split; [exact Hq|]. split.
      * rewrite Hcur. cbn [client nextEntry set_nextEntry].
        unfold cursorAfter. cbn [map]. rewrite last_cons. reflexivity.
      * split.
        -- destruct Hkeep as (H1 & H2 & H3 & H4 & H5 & H6 & H7 & H8 & H9 & H10
                              & H11 & H12 & H13 & H14).
           cbn [client] in *. repeat split; assumption.
        -- rewrite Hdel. cbn [events]. rewrite delivered_app, <- app_assoc.
           reflexivity.
Qed.

(** X10.  With the default callback PrintReceivedEntry registered, the
    consumer never returns: given enough turns it hands every entry of its
    queue to the callback, each once and in the order of the queue, and
    ends waiting on the empty queue.  The cursor is then one past the
    number of the last entry (uint64 arithmetic), or where it was when the
    queue was empty, and nothing else of the client has changed. *)
Theorem default_callback_drains (es : list FileEntry) (w : World) (n : nat) :
  processEntry (client w) = FnPrintReceivedEntry ->
  entries (client w) = es ->
  (length es < n)%nat ->
  exists w',
    getStreaming n w = Blocked w' /\
    entries (client w') = [] /\
    nextEntry (client w') = cursorAfter (nextEntry (client w)) es /\
    (forall es0 e, es = es0 ++ [e] ->
       nextEntry (client w') = wrap64 (Number e + 1)) /\
    onlyConsumed (client w) (client w') /\
    delivered (events w') = delivered (events w) ++ es.
Proof.
  intros Hf Hes Hn.
  destruct (getStreaming_default es w n Hf Hes Hn)
    as (w' & Hrun & Hq & Hcur & Hkeep & Hdel).
  exists w'. split; [exact Hrun|]. split; [exact Hq|]. split; [exact Hcur|].
  split; [|split; assumption].
  intros es0 e ->. rewrite Hcur. unfold cursorAfter.
  rewrite map_app. cbn [map]. apply last_last.
Qed.

(** X11.  SetProcessEntryFunc registers the callback with a nil relay
    server: the first entry the consumer takes afterwards goes to that
    callback together with nil, whatever relay server the client had.
    ResetProcessEntryFunc puts the default callback back and keeps the
    relay server of the client as it is, so after SetProcessEntryFunc it
    stays nil. *)
Theorem SetProcessEntryFunc_drops_relay (i : nat) (c : StreamClient)
    (evs : list Event) (e : FileEntry) (q : list FileEntry) (n : nat) :
  entries c = e :: q ->
  let c0 := SetProcessEntryFunc (FnUser i) c in
  let c1 := set_nextEntry (wrap64 (Number e + 1)) (set_entries q c0) in
  getStreaming (S n) (mkWorld c0 evs) =
    match userFuncs i e c1 None with
    | (c2, Some err) =>
        Done err (mkWorld c2 (evs ++ [EvProcess e c1 None (Some err)]))
    | (c2, None) =>
        getStreaming n (mkWorld c2 (evs ++ [EvProcess e c1 None None]))
    end /\
  relayServer (ResetProcessEntryFunc c0) = None /\
  processEntry (ResetProcessEntryFunc c0) = FnPrintReceivedEntry /\
  relayServer (ResetProcessEntryFunc c) = relayServer c.
Proof.
  intros He c0 c1. split; [|repeat split].
  rewrite (getStreaming_turn n (mkWorld c0 evs) e q He).
  reflexivity.
Qed.

(** ** Resuming where the consumer stopped *)

(** X12.  A started, streaming client whose consumer (default callback) has
    gone through the entries [es], whose connection is then closed and
    whose next Dial succeeds: the Start that connectServer sends on the new
    connection carries the cursor the consumer left, one past the number
    of the last entry delivered, and fromStream becomes that cursor. *)
Theorem resume_from_last_delivered (es0 : list FileEntry) (e : FileEntry)
    (w : World) (n : nat) (k2 : Conn) (ds : list DialOutcome) :
  processEntry (client w) = FnPrintReceivedEntry ->
  entries (client w) = es0 ++ [e] ->
  (length (es0 ++ [e]) < n)%nat ->
  streaming (client w) = true ->
  started (client w) = true ->
  closed k2 = false ->
  writes_ok 3 (writes k2) = true ->
  exists w1 w2 w3 k3,
    getStreaming n w = Blocked w1 /\
    closeConnection w1 = Done tt w2 /\
    connectServer (DialOk k2 :: ds) w2 = Done (true, ds) w3 /\
    conn (client w3) = Some k3 /\
    wire k3 = wire k2 ++ PutUint64 CmdStart
                   ++ PutUint64 (streamType (client w))
                   ++ PutUint64 (wrap64 (Number e + 1)) /\
    fromStream (client w3) = wrap64 (Number e + 1).
Proof.
  intros Hf Hes Hn Hstr Hsta Hc Hw.
  destruct (getStreaming_default (es0 ++ [e]) w n Hf Hes Hn)
    as (w1 & Hrun & Hq & Hcur & Hkeep & Hdel).
  destruct Hkeep as (H1 & H2 & H3 & H4 & H5 & H6 & H7 & H8 & H9 & H10
                     & H11 & H12 & H13 & H14).
  assert (Hcur' : nextEntry (client w1) = wrap64 (Number e + 1)).
  { rewrite Hcur. unfold cursorAfter. rewrite map_app. cbn [map].
    apply last_last. }
  exists w1, (closedWorld w1).
  assert (Hclosed : connected (client (closedWorld w1)) = false /\
                    streaming (client (closedWorld w1)) = true /\
                    started (client (closedWorld w1)) = true /\
                    nextEntry (client (closedWorld w1)) = wrap64 (Number e + 1) /\
                    streamType (client (closedWorld w1)) = streamType (client w)).
  { unfold closedWorld. destruct (conn (client w1));
      cbn [client connected streaming started nextEntry streamType
           set_connected set_conn];
      rewrite H7, H5, Hstr, Hsta, Hcur', H2; repeat split. }
  destruct Hclosed as (Hcc & Hcs & Hct & Hcn & Hcst).
  destruct (connectServer_resume_ok k2 ds (closedWorld w1) Hcc Hcs Hct Hc Hw)
    as (k3 & w3 & Hconn & Hk3 & Hwire & _ & Hfrom & _).
  exists w3, k3. split; [exact Hrun|]. split; [apply closeConnection_eq|].
  split; [exact Hconn|]. split; [exact Hk3|]. split.
  - rewrite Hwire, Hcn, Hcst. reflexivity.
  - rewrite Hfrom, Hcn. reflexivity.
Qed.

(** ** Reading records from the line *)

Ltac pkt_idx t :=
  lazymatch t with
  | PtResult => constr:(0%nat)
  | PtDataRsp => constr:(1%nat)
  | PtHeader => constr:(2%nat)
  | PtData => constr:(3%nat)
  end.

(** Decides every comparison of two packet tags in the goal. *)
Ltac pkt_eqb :=
  repeat match goal with
  | |- context [?a =? ?a] => rewrite (Z.eqb_refl a)
  | |- context [?a =? ?b] =>
      let i := pkt_idx a in
      let j := pkt_idx b in
      rewrite (distinct_eqb _ i j a b packets_distinct eq_refl eq_refl
                 ltac:(discriminate))
  end.

Lemma framed_spec size fixed aux :
  framed size fixed aux = true ->
  length fixed = Z.to_nat (size - 1) /\
  size <= Uint32 (firstn 4 fixed) /\
  length aux = Z.to_nat (Uint32 (firstn 4 fixed) - size).
Proof.
  unfold framed. intros H.
  apply andb_true_iff in H. destruct H as [H H3].
  apply andb_true_iff in H. destruct H as [H1 H2].
  apply Nat.eqb_eq in H1. apply Nat.eqb_eq in H3. apply Z.leb_le in H2.
  auto.
Qed.



Lemma readDataEntry_ok w k fixed aux more :
  conn (client w) = Some k ->
  closed k = false ->
  incoming k = fixed ++ aux ++ more ->
  framed FixedSizeFileEntry fixed aux = true ->
  readDataEntry w =
  Done (DecodeBinaryToFileEntry (PtData :: fixed ++ aux))
       (with_conn (advance (length fixed + length aux) k) w).
Proof.
  intros Hk Hc Hin Hfr.
  destruct (framed_spec _ _ _ Hfr) as (Hfix & Hlen & Haux).
  unfold readDataEntry.
  unfold bind at 1. unfold readContent at 1. rewrite <- Hfix.
  rewrite (ReadFull_ok (length fixed) w k Hk Hc)
    by (rewrite Hin, length_app; lia).
  rewrite Hin, firstn_exact. cbn [skipn].
  destruct (Z.ltb_spec (Uint32 (firstn 4 fixed)) FixedSizeFileEntry); [lia|].
  unfold bind at 1. unfold readContent. rewrite <- Haux.
  rewrite (ReadFull_ok (length aux) (with_conn (advance (length fixed) k) w)
             (advance (length fixed) k) eq_refl Hc).
  2: { cbn [advance incoming]. rewrite Hin, skipn_exact, length_app. lia. }
  cbn [advance incoming]. rewrite Hin, skipn_exact, firstn_exact.
  unfold ret.
  change (PtData :: fixed ++ aux) with ((PtData :: fixed) ++ aux).
  f_equal. rewrite advance_advance. reflexivity.
Qed.


Lemma readResultEntry_bad_length w k fixed more :
  conn (client w) = Some k ->
  closed k = false ->
  incoming k = fixed ++ more ->
  length fixed = Z.to_nat (FixedSizeResultEntry - 1) ->
  Uint32 (firstn 4 fixed) < FixedSizeResultEntry ->
  readResultEntry w =
  Done (zeroResult, Some ErrReadingResultEntry)
       (with_conn (advance (length fixed) k) w).
Proof.
  intros Hk Hc Hin Hfix Hlen. unfold readResultEntry.
  unfold bind at 1. rewrite <- Hfix.
  rewrite (ReadFull_ok (length fixed) w k Hk Hc)
    by (rewrite Hin, length_app; lia).
  rewrite Hin, firstn_exact. cbn [skipn].
  destruct (Z.ltb_spec (Uint32 (firstn 4 fixed)) FixedSizeResultEntry); [|lia].
  reflexivity.
Qed.

Lemma readHeaderEntry_ok w k body more :
  conn (client w) = Some k ->
  closed k = false ->
  incoming k = body ++ more ->
  length body = Z.to_nat (headerSize - 1) ->
  readHeaderEntry w =
  Done (decodeBinaryToHeaderEntry (PtHeader :: body))
       (with_conn (advance (length body) k) w).
Proof.
  intros Hk Hc Hin Hlen. unfold readHeaderEntry.
  unfold bind at 1. rewrite <- Hlen.
  rewrite (ReadFull_ok (length body) w k Hk Hc)
    by (rewrite Hin, length_app; lia).
  rewrite Hin, firstn_exact.
  pose proof fixed_sizes as Hs.
  apply andb_true_iff in Hs. destruct Hs as [_ Hs]. apply Z.leb_le in Hs.
  replace (Z.of_nat (length body) =? headerSize - 1) with true
    by (symmetry; apply Z.eqb_eq; rewrite Hlen; lia).
  reflexivity.
Qed.

(** A turn of a connected client, up to the switch on the tag. *)
Lemma readEntries_turn_tag ds w k tag rest :
  connected (client w) = true ->
  conn (client w) = Some k ->
  closed k = false ->
  incoming k = tag :: rest ->
  readEntries_turn ds w =
  dispatchPacket false ds tag (with_conn (advance 1 k) w).
Proof.
  intros Hcon Hk Hc Hin. unfold readEntries_turn.
  unfold bind at 1. rewrite (connectServer_connected ds w Hcon). cbn [fst snd].
  unfold bind at 1. unfold readContent at 1.
  rewrite (ReadFull_ok 1 w k Hk Hc) by (rewrite Hin; simpl; lia).
  rewrite Hin. cbn [firstn hd]. reflexivity.
Qed.

Lemma advance_incoming k tag rest :
  incoming k = tag :: rest -> incoming (advance 1 k) = rest.
Proof. intros H. cbn [advance incoming]. rewrite H. reflexivity. Qed.

(** ** Routing *)

(** X13.  A turn of the dispatcher on a connected client with a well-formed
    packet at the head of its line and room in the queue.  No Dial is made.
    A Data packet ends at the back of the queue of streaming entries, a
    DataRsp packet at the back of the queue of data responses, a Header
    packet at the back of the queue of headers and a Result packet (no
    resume outstanding) at the back of the queue of results; the other
    queues, the flags and the cursor are as before, and exactly the bytes
    of the packet have been read.  Data and DataRsp records are both handed
    to the decoder behind the tag PtData. *)
Theorem readEntries_routes (ds : list DialOutcome) (w : World) (k : Conn) :
  connected (client w) = true ->
  conn (client w) = Some k ->
  closed k = false ->
  (forall fixed aux more e,
     incoming k = PtData :: fixed ++ aux ++ more ->
     framed FixedSizeFileEntry fixed aux = true ->
     DecodeBinaryToFileEntry (PtData :: fixed ++ aux) = (e, None) ->
     (length (entries (client w)) < entriesBuffer)%nat ->
     readEntries_turn ds w =
     Done ds (mkWorld
                (set_entries (entries (client w) ++ [e])
                   (set_conn (Some (advance (1 + (length fixed + length aux)) k))
                      (client w)))
                (events w))) /\
  (forall fixed aux more e,
     incoming k = PtDataRsp :: fixed ++ aux ++ more ->
     framed FixedSizeFileEntry fixed aux = true ->
     DecodeBinaryToFileEntry (PtData :: fixed ++ aux) = (e, None) ->
     (length (entryRsp (client w)) < entryRspBuffer)%nat ->
     readEntries_turn ds w =
     Done ds (mkWorld
                (set_entryRsp (entryRsp (client w) ++ [e])
                   (set_conn (Some (advance (1 + (length fixed + length aux)) k))
                      (client w)))
                (events w))) /\
  (forall body more h,
     incoming k = PtHeader :: body ++ more ->
     length body = Z.to_nat (headerSize - 1) ->
     decodeBinaryToHeaderEntry (PtHeader :: body) = (h, None) ->
     (length (headers (client w)) < headersBuffer)%nat ->
     readEntries_turn ds w =
     Done ds (mkWorld
                (set_headers (headers (client w) ++ [h])
                   (set_conn (Some (advance (1 + length body) k)) (client w)))
                (events w))) /\
  (forall fixed aux more r,
     incoming k = PtResult :: fixed ++ aux ++ more ->
     framed FixedSizeResultEntry fixed aux = true ->
     DecodeBinaryToResultEntry (PtResult :: fixed ++ aux) = (r, None) ->
     (length (results (client w)) < resultsBuffer)%nat ->
     readEntries_turn ds w =
     Done ds (mkWorld
                (set_results (results (client w) ++ [r])
                   (set_conn (Some (advance (1 + (length fixed + length aux)) k))
                      (client w)))
                (events w))).
Proof.
  intros Hcon Hk Hc. split; [|split; [|split]].
  - intros fixed aux more e Hin Hfr Hdec Hroom.
    rewrite (readEntries_turn_tag ds w k _ _ Hcon Hk Hc Hin).
    unfold dispatchPacket. pkt_eqb. unfold bind at 1.
    rewrite (readDataEntry_ok (with_conn (advance 1 k) w) (advance 1 k)
               fixed aux more eq_refl Hc (advance_incoming k _ _ Hin) Hfr).
    rewrite Hdec. unfold bind, send, ret.
    cbn [client with_conn set_conn entries events].
    destruct (Nat.ltb_spec (length (entries (client w))) entriesBuffer); [|lia].
    rewrite advance_advance. reflexivity.
  - intros fixed aux more e Hin Hfr Hdec Hroom.
    rewrite (readEntries_turn_tag ds w k _ _ Hcon Hk Hc Hin).
    unfold dispatchPacket. pkt_eqb. unfold bind at 1.
    rewrite (readDataEntry_ok (with_conn (advance 1 k) w) (advance 1 k)
               fixed aux more eq_refl Hc (advance_incoming k _ _ Hin) Hfr).
    rewrite Hdec. unfold bind, send, ret.
    cbn [client with_conn set_conn entryRsp events].
    destruct (Nat.ltb_spec (length (entryRsp (client w))) entryRspBuffer); [|lia].
    rewrite advance_advance. reflexivity.
  - intros body more h Hin Hlen Hdec Hroom.
    rewrite (readEntries_turn_tag ds w k _ _ Hcon Hk Hc Hin).
    unfold dispatchPacket. pkt_eqb. unfold bind at 1.
    rewrite (readHeaderEntry_ok (with_conn (advance 1 k) w) (advance 1 k)
               body more eq_refl Hc (advance_incoming k _ _ Hin) Hlen).
    rewrite Hdec. unfold bind, send, ret.
    cbn [client with_conn set_conn headers events].
    destruct (Nat.ltb_spec (length (headers (client w))) headersBuffer); [|lia].
    rewrite advance_advance. reflexivity.
  - intros fixed aux more r Hin Hfr Hdec Hroom.
    destruct (framed_spec _ _ _ Hfr) as (Hfix & Hlen & Haux).
    rewrite (readEntries_turn_tag ds w k _ _ Hcon Hk Hc Hin).
    unfold dispatchPacket. pkt_eqb. unfold bind at 1.
    rewrite (readResultEntry_ok (with_conn (advance 1 k) w) (advance 1 k)
               fixed aux more eq_refl Hc (advance_incoming k _ _ Hin)
               Hfix Hlen Haux).
    rewrite Hdec. unfold bind, send, ret.
    cbn [client with_conn set_conn results events].
    destruct (Nat.ltb_spec (length (results (client w))) resultsBuffer); [|lia].
    rewrite advance_advance. reflexivity.
Qed.


(** X15.  Back-pressure.  When the queue of streaming entries is full, a
    turn that has read a well-formed Data packet blocks on the queue: the
    entries waiting are all still there, nothing is dropped, and the
    connection stays open and connected. *)
Theorem readEntries_blocks_when_full (ds : list DialOutcome) (w : World)
    (k : Conn) (fixed aux more : list byte) (e : FileEntry) :
  connected (client w) = true ->
  conn (client w) = Some k ->
  closed k = false ->
  incoming k = PtData :: fixed ++ aux ++ more ->
  framed FixedSizeFileEntry fixed aux = true ->
  DecodeBinaryToFileEntry (PtData :: fixed ++ aux) = (e, None) ->
  (entriesBuffer <= length (entries (client w)))%nat ->
  exists w',
    readEntries_turn ds w = Blocked w' /\
    queues (client w') = queues (client w) /\
    connected (client w') = true /\
    option_map closed (conn (client w')) = Some false /\
    events w' = events w.
Proof.
  intros Hcon Hk Hc Hin Hfr Hdec Hfull.
  rewrite (readEntries_turn_tag ds w k _ _ Hcon Hk Hc Hin).
  unfold dispatchPacket. pkt_eqb. unfold bind at 1.
  rewrite (readDataEntry_ok (with_conn (advance 1 k) w) (advance 1 k)
             fixed aux more eq_refl Hc (advance_incoming k _ _ Hin) Hfr).
  rewrite Hdec. unfold bind, send.
  cbn [client with_conn set_conn entries events].
  destruct (Nat.ltb_spec (length (entries (client w))) entriesBuffer); [lia|].
  eexists. split; [reflexivity|]. unfold queues.
  cbn [client set_conn conn connected option_map advance closed
       results headers entries entryRsp events].
  repeat split.
  - exact Hcon.
  - cbn. rewrite Hc. reflexivity.
Qed.

(** X16.  From the line to the callback.  A well-formed Data packet read by
    a turn of the dispatcher of a connected client whose queue of entries
    is empty is the next entry the consumer hands to the registered
    callback (here the default one), and the resume cursor then is one
    past the number the decoder gave it. *)
Theorem data_packet_reaches_callback (ds : list DialOutcome) (w : World)
    (k : Conn) (fixed aux more : list byte) (e : FileEntry) (n : nat) :
  connected (client w) = true ->
  conn (client w) = Some k ->
  closed k = false ->
  incoming k = PtData :: fixed ++ aux ++ more ->
  framed FixedSizeFileEntry fixed aux = true ->
  DecodeBinaryToFileEntry (PtData :: fixed ++ aux) = (e, None) ->
  entries (client w) = [] ->
  processEntry (client w) = FnPrintReceivedEntry ->
  exists w1 w2,
    readEntries_turn ds w = Done ds w1 /\
    getStreaming (S (S n)) w1 = Blocked w2 /\
    delivered (events w2) = delivered (events w) ++ [e] /\
    nextEntry (client w2) = wrap64 (Number e + 1) /\
    entries (client w2) = [].
Proof.
  intros Hcon Hk Hc Hin Hfr Hdec Hq Hf.
  rewrite (readEntries_turn_tag ds w k _ _ Hcon Hk Hc Hin).
  unfold dispatchPacket. pkt_eqb. unfold bind at 1.
  rewrite (readDataEntry_ok (with_conn (advance 1 k) w) (advance 1 k)
             fixed aux more eq_refl Hc (advance_incoming k _ _ Hin) Hfr).
  rewrite Hdec. unfold bind, send, ret.
  cbn [client with_conn set_conn entries events]. rewrite Hq.
  cbn [length app].
  replace (0 <? entriesBuffer)%nat with true by reflexivity.
  eexists.
  match goal with
  | |- exists w2, Done ds ?w1 = _ /\ _ =>
      destruct (getStreaming_default [e] w1 (S (S n)) Hf eq_refl
                  ltac:(simpl; lia))
        as (w2 & Hrun & Hq2 & Hcur & _ & Hdel)
  end.
  exists w2. split; [reflexivity|]. split; [exact Hrun|].
  split; [exact Hdel|]. split; [exact Hcur | exact Hq2].
Qed.

(** ** The result of a resume that is not the first packet *)

Lemma readEntries_turn_after_connect ds w b ds' w1 k1 tag rest :
  connectServer ds w = Done (b, ds') w1 ->
  conn (client w1) = Some k1 ->
  closed k1 = false ->
  incoming k1 = tag :: rest ->
  readEntries_turn ds w =
  dispatchPacket b ds' tag (with_conn (advance 1 k1) w1).
Proof.
  intros Hconn Hk Hc Hin. unfold readEntries_turn.
  unfold bind at 1. rewrite Hconn. cbn [fst snd].
  unfold bind at 1. unfold readContent at 1.
  rewrite (ReadFull_ok 1 w1 k1 Hk Hc) by (rewrite Hin; simpl; lia).
  rewrite Hin. cbn [firstn hd]. reflexivity.
Qed.

Lemma dispatch_data b ds w k fixed aux more e :
  conn (client w) = Some k ->
  closed k = false ->
  incoming k = fixed ++ aux ++ more ->
  framed FixedSizeFileEntry fixed aux = true ->
  DecodeBinaryToFileEntry (PtData :: fixed ++ aux) = (e, None) ->
  (length (entries (client w)) < entriesBuffer)%nat ->
  dispatchPacket b ds PtData w =
  Done ds (mkWorld
             (set_entries (entries (client w) ++ [e])
                (set_conn (Some (advance (length fixed + length aux) k))
                   (client w)))
             (events w)).
Proof.
  intros Hk Hc Hin Hfr Hdec Hroom.
  unfold dispatchPacket. pkt_eqb. unfold bind at 1.
  rewrite (readDataEntry_ok w k fixed aux more Hk Hc Hin Hfr).
  rewrite Hdec. unfold bind, send, ret.
  cbn [client with_conn set_conn entries events].
  destruct (Nat.ltb_spec (length (entries (client w))) entriesBuffer); [|lia].
  reflexivity.
Qed.

Lemma dispatch_result_plain ds w k fixed aux more r :
  conn (client w) = Some k ->
  closed k = false ->
  incoming k = fixed ++ aux ++ more ->
  framed FixedSizeResultEntry fixed aux = true ->
  DecodeBinaryToResultEntry (PtResult :: fixed ++ aux) = (r, None) ->
  (length (results (client w)) < resultsBuffer)%nat ->
  dispatchPacket false ds PtResult w =
  Done ds (mkWorld
             (set_results (results (client w) ++ [r])
                (set_conn (Some (advance (length fixed + length aux) k))
                   (client w)))
             (events w)).
Proof.
  intros Hk Hc Hin Hfr Hdec Hroom.
  destruct (framed_spec _ _ _ Hfr) as (Hfix & Hlen & Haux).
  unfold dispatchPacket. pkt_eqb. unfold bind at 1.
  rewrite (readResultEntry_ok w k fixed aux more Hk Hc Hin Hfix Hlen Haux).
  rewrite Hdec. unfold bind, send, ret.
  cbn [client with_conn set_conn results events].
  destruct (Nat.ltb_spec (length (results (client w))) resultsBuffer); [|lia].
  reflexivity.
Qed.

Lemma awaitResult_bad cmd fe w r q :
  results (client w) = r :: q ->
  errorNum r <> CmdErrOK ->
  awaitResult cmd false fe w =
  Done (zeroHeader, zeroEntry, Some ErrResultCommandError)
       (mkWorld (set_results q (client w)) (events w)).
Proof.
  intros Hr Hbad. unfold awaitResult, bind, getResult, recv.
  rewrite Hr. unfold ret at 1.
  rewrite (proj2 (Z.eqb_neq _ _) Hbad). reflexivity.
Qed.

(** X17.  The result of a resume is taken by the dispatcher only in the
    turn in which connectServer returned true.  When the server sends a
    Data packet first and the Result of the resume after it, the first
    turn queues the entry and the second turn, in which connectServer
    returns false, queues the result and leaves it there: with a code
    other than OK the connection is not closed and nothing is retried.
    The next command of the client takes this result for its own: an
    ExecCommandStop then returns ErrResultCommandError and streaming stays
    set. *)
Theorem resume_result_missed (ds ds' : list DialOutcome) (w w1 : World)
    (k1 : Conn) (fixed aux rfixed raux more : list byte)
    (e : FileEntry) (r : ResultEntry) :
  connectServer ds w = Done (true, ds') w1 ->
  conn (client w1) = Some k1 ->
  closed k1 = false ->
  writes_ok 4 (writes k1) = true ->
  incoming k1 = PtData :: fixed ++ aux ++ (PtResult :: rfixed ++ raux ++ more) ->
  framed FixedSizeFileEntry fixed aux = true ->
  DecodeBinaryToFileEntry (PtData :: fixed ++ aux) = (e, None) ->
  (length (entries (client w1)) < entriesBuffer)%nat ->
  framed FixedSizeResultEntry rfixed raux = true ->
  DecodeBinaryToResultEntry (PtResult :: rfixed ++ raux) = (r, None) ->
  results (client w1) = [] ->
  errorNum r <> CmdErrOK ->
  exists w2 w3 w4,
    readEntries_turn ds w = Done ds' w2 /\
    entries (client w2) = entries (client w1) ++ [e] /\
    readEntries_turn ds' w2 = Done ds' w3 /\
    results (client w3) = [r] /\
    connected (client w3) = true /\
    events w3 = events w1 /\
    ExecCommandStop w3 = Done (Some ErrResultCommandError) w4 /\
    streaming (client w4) = true /\
    results (client w4) = [].
Proof.
  intros Hconn Hk Hc Hw Hin Hfr Hdec Hroom Hrfr Hrdec Hres Hbad.
  assert (Hcon1 : connected (client w1) = true)
    by (eapply connectServer_returns_connected; exact Hconn).
  destruct (connectServer_true ds w ds' w1 Hconn) as [Hstr Hsta].
  rewrite (readEntries_turn_after_connect ds w true ds' w1 k1 _ _
             Hconn Hk Hc Hin).
  rewrite (dispatch_data true ds' (with_conn (advance 1 k1) w1) (advance 1 k1)
             fixed aux (PtResult :: rfixed ++ raux ++ more) e
             eq_refl Hc (advance_incoming k1 _ _ Hin) Hfr Hdec Hroom).
  eexists. eexists. eexists.
  split; [reflexivity|]. split; [reflexivity|].
  set (k2 := advance (length fixed + length aux) (advance 1 k1)).
  assert (Hin2 : incoming k2 = PtResult :: rfixed ++ raux ++ more).
  { subst k2. rewrite advance_advance. cbn [advance incoming].
    rewrite Hin. cbn [Nat.add skipn].
    rewrite app_assoc, <- length_app, skipn_exact. reflexivity. }
  match goal with
  | |- readEntries_turn ds' ?w2 = _ /\ _ =>
      rewrite (readEntries_turn_tag ds' w2 k2 _ _ Hcon1 eq_refl Hc Hin2);
      rewrite (dispatch_result_plain ds' (with_conn (advance 1 k2) w2)
                 (advance 1 k2) rfixed raux more r eq_refl Hc
                 (advance_incoming k2 _ _ Hin2) Hrfr Hrdec
                 ltac:(cbn [client with_conn set_conn set_entries results];
                       rewrite Hres; unfold resultsBuffer; simpl; lia))
  end.
  split; [reflexivity|].
  cbn [client with_conn set_conn set_entries set_results results connected
       events].
  rewrite Hres. split; [reflexivity|]. split; [exact Hcon1|].
  split; [reflexivity|].
  unfold ExecCommandStop. unfold bind at 1.
  match goal with
  | |- context [execCommand CmdStop false 0 [] ?w3] =>
      rewrite (execCommand_writes CmdStop false 0 [] w3
                 (advance (length rfixed + length raux) (advance 1 k2))
                 Hsta IsACommand_Stop eq_refl)
  end.
  unfold paramsOf. cmd_eqb. cbn [orb]. unfold commandWrites, paramWrites.
  rewrite (writeAll_ok [_; _] (advance _ (advance 1 k2)) Hc
             (writes_ok_le 2 4 _ ltac:(lia) Hw)).
  match goal with
  | |- context [awaitResult CmdStop false 0 ?w0] =>
      assert (Hr0 : results (client w0) = [r]) by reflexivity;
      rewrite (awaitResult_bad CmdStop 0 w0 r [] Hr0 Hbad)
  end.
  unfold ret. cbn [snd client streaming results set_results set_conn
                   set_entries with_conn].
  split; [reflexivity|]. split; [exact Hstr | reflexivity].
Qed.

End Client.

(** * The theorems on the test bench *)

Lemma execCommand_refused_witness :
  (started (client Bench.idle) = false /\
   started (client (Bench.ready (Bench.line [] []))) = true /\
   ~ In 9 [1; 2; 3; 4; 5; 6]) /\
  @execCommand Bench.decls 1 false 0 [] Bench.idle =
    Done (zeroHeader, zeroEntry, Some ErrExecCommandNotAllowed) Bench.idle /\
  @execCommand Bench.decls 9 false 0 [] (Bench.ready (Bench.line [] [])) =
    Done (zeroHeader, zeroEntry, Some ErrInvalidCommand)
         (Bench.ready (Bench.line [] [])).
Proof.
  assert (Hnot : ~ In 9 [1; 2; 3; 4; 5; 6]).
  { simpl. intros [H|[H|[H|[H|[H|[H|H]]]]]]; try discriminate H. exact H. }
  split; [repeat split; exact Hnot|]. split.
  - apply (proj1 (@execCommand_refused Bench.decls 1 false 0 [] Bench.idle)).
    reflexivity.
  - apply (proj2 (@execCommand_refused Bench.decls 9 false 0 []
                    (Bench.ready (Bench.line [] [])))).
    + reflexivity.
    + exact Hnot.
Defined.

Lemma execCommand_frame_witness :
  let k := Bench.line [] [WriteOk; WriteOk; WriteErr 2 EOF] in
  (started (client (Bench.ready k)) = true /\
   @IsACommand Bench.decls 4 = true /\
   conn (client (Bench.ready k)) = Some k /\
   closed k = false /\
   writes k = repeat WriteOk 2 ++ WriteErr 2 EOF :: [] /\
   (2 < 4)%nat) /\
  exists k',
    @execCommand Bench.decls 4 false 5 [7; 8; 9] (Bench.ready k) =
      Done (zeroHeader, zeroEntry, Some EOF) (with_conn k' (Bench.ready k)) /\
    wire k' = [0; 0; 0; 0; 0; 0; 0; 4; 0; 0; 0; 0; 0; 0; 0; 1; 0; 0].
Proof.
  cbv zeta.
  assert (Hlt : (2 < 4)%nat) by (apply Nat.ltb_lt; reflexivity).
  split; [repeat split; exact Hlt|].
  destruct (@execCommand_frame Bench.decls 4 false 5 [7; 8; 9]
              (Bench.ready (Bench.line [] [WriteOk; WriteOk; WriteErr 2 EOF]))
              (Bench.line [] [WriteOk; WriteOk; WriteErr 2 EOF])
              eq_refl eq_refl eq_refl) as (_ & _ & H & _).
  destruct (H 2%nat 2%nat EOF [] eq_refl eq_refl Hlt) as [Hrun Hwire].
  eexists. split; [exact Hrun | exact Hwire].
Defined.

Lemma execCommand_success_witness :
  let w := Bench.answered 0 (Bench.line [] []) in
  (can_send w = true /\
   results (client w) = [mkResult 0 []] /\
   errorNum (mkResult 0 []) = @CmdErrOK Bench.decls) /\
  exists w',
    @execCommand Bench.decls 1 false 5 [] w =
      Done (zeroHeader, zeroEntry, None) w' /\
    streaming (client w') = true /\ fromStream (client w') = 5.
Proof.
  cbv zeta. split; [repeat split|].
  exact (proj1 (@execCommand_success Bench.decls
                  (Bench.answered 0 (Bench.line [] []))
                  (mkResult 0 []) [] 5 [] eq_refl eq_refl eq_refl)).
Defined.

Lemma execCommand_result_gate_witness :
  let w := Bench.answered 3 (Bench.line [] []) in
  (can_send w = true /\
   @IsACommand Bench.decls 2 = true /\
   results (client w) = [mkResult 3 []] /\
   errorNum (mkResult 3 []) <> @CmdErrOK Bench.decls) /\
  exists k',
    @execCommand Bench.decls 2 false 0 [] w =
      Done (zeroHeader, zeroEntry, Some ErrResultCommandError)
           (mkWorld (set_results [] (set_conn (Some k') (client w))) (events w)).
Proof.
  cbv zeta.
  assert (Hne : errorNum (mkResult 3 []) <> @CmdErrOK Bench.decls).
  { intros H. discriminate H. }
  split; [repeat split; exact Hne|].
  exact (proj1 (@execCommand_result_gate Bench.decls 2 0 []
                  (Bench.answered 3 (Bench.line [] [])) eq_refl)
           (mkResult 3 []) [] eq_refl eq_refl Hne).
Defined.

Lemma execCommand_not_found_witness :
  let e := mkEntry 0 17 4294967295 [] in
  let w := Bench.responded e (Bench.line [] []) in
  (can_send w = true /\
   true || match results (client w) with
           | r :: _ => errorNum r =? @CmdErrOK Bench.decls
           | [] => false
           end = true /\
   entryRsp (client w) = [e] /\
   Type_ e = @EntryTypeNotFound Bench.decls) /\
  exists w',
    @execCommand Bench.decls 5 true 7 [] w =
      Done (zeroHeader, zeroEntry, Some ErrEntryNotFound) w'.
Proof.
  cbv zeta. split; [repeat split|].
  exact (proj1 (proj1 (@execCommand_not_found Bench.decls true 7 []
                         (Bench.responded (mkEntry 0 17 4294967295 [])
                            (Bench.line [] []))
                         (mkEntry 0 17 4294967295 []) []
                         eq_refl eq_refl eq_refl) eq_refl)).
Defined.

Lemma getStreaming_delivers_witness :
  let w := Bench.consumer (FnUser 0) 0 [Bench.entry 2; Bench.entry 3] in
  let c1 := set_nextEntry 3 (set_entries [Bench.entry 3] (client w)) in
  (entries (client w) = [Bench.entry 2; Bench.entry 3] /\
   snd (callFunc Bench.funcs (FnUser 0) (Bench.entry 2) c1 None)
     = Some (OtherError 7)) /\
  getStreaming Bench.funcs 5 w =
    Done (OtherError 7)
         (mkWorld c1 [EvProcess (Bench.entry 2) c1 None (Some (OtherError 7))]).
Proof.
  cbv zeta. split; [split; reflexivity|].
  destruct (proj1 (getStreaming_delivers Bench.funcs 4
                     (Bench.consumer (FnUser 0) 0 [Bench.entry 2; Bench.entry 3]))
              (Bench.entry 2) [Bench.entry 3] eq_refl)
    as (_ & _ & H & _).
  exact (H (OtherError 7) eq_refl).
Defined.




Lemma connectServer_resumes_witness :
  let k := Bench.line [] [] in
  let w := Bench.dropped 9 in
  (connected (client w) = false /\
   streaming (client w) = true /\
   started (client w) = true /\
   closed k = false /\
   writes_ok 3 (writes k) = true) /\
  exists k' w',
    @connectServer Bench.decls [DialOk k] w = Done (true, []) w' /\
    conn (client w') = Some k' /\
    wire k' = [0; 0; 0; 0; 0; 0; 0; 1; 0; 0; 0; 0; 0; 0; 0; 1;
               0; 0; 0; 0; 0; 0; 0; 9].
Proof.
  cbv zeta. split; [repeat split|].
  destruct (@connectServer_resumes Bench.decls [] (Bench.dropped 9))
    as (_ & _ & _ & H & _).
  destruct (H (Bench.line [] []) eq_refl eq_refl eq_refl eq_refl eq_refl)
    as (k' & w' & Hrun & Hk & Hwire & _).
  exists k', w'. split; [exact Hrun|]. split; [exact Hk | exact Hwire].
Defined.


(** * The further properties on the test bench *)

Lemma execCommand_after_close_witness :
  let k := Bench.line [] [] in
  let w := Bench.ready k in
  (started (client w) = true /\
   @IsACommand Bench.decls 2 = true /\
   conn (client w) = Some k) /\
  exists w1,
    closeConnection w = Done tt w1 /\
    @execCommand Bench.decls 2 false 0 [] w1 =
      Done (zeroHeader, zeroEntry, Some ErrClosed) w1.
Proof.
  intros k w. split; [split; [|split]; reflexivity|].
  destruct (@execCommand_after_close Bench.decls 2 false 0 [] w k
              eq_refl eq_refl eq_refl) as (w1 & H1 & H2 & _).
  exists w1. exact (conj H1 H2).
Defined.

Lemma execCommand_panics_while_redialing_witness :
  let w := Bench.dropped 9 in
  (started (client w) = true /\
   @IsACommand Bench.decls 2 = true /\
   conn (client w) = None) /\
  @execCommand Bench.decls 2 false 0 [] w = Panicked w.
Proof.
  intros w. split; [split; [|split]; reflexivity|].
  exact (proj1 (@execCommand_panics_while_redialing Bench.decls 2 false 0 [] w
                  eq_refl eq_refl) eq_refl).
Defined.

Lemma streaming_needs_started_witness :
  let w := Bench.answered 0 (Bench.line [] []) in
  ((streaming (client w) = true -> started (client w) = true) /\
   streaming (client (final (@execCommand Bench.decls 1 false 5 [] w))) = true) /\
  started (client (final (@execCommand Bench.decls 1 false 5 [] w))) = true.
Proof.
  intros w.
  assert (H1 : streaming (client w) = true -> started (client w) = true)
    by (intros _; reflexivity).
  assert (H2 : streaming (client (final (@execCommand Bench.decls 1 false 5 [] w)))
               = true) by (vm_compute; reflexivity).
  split; [exact (conj H1 H2)|].
  exact (proj2 (proj2 (@streaming_needs_started Bench.decls
                         "10.0.0.1:6900" 1 1 false 5 [] w)) H1 H2).
Defined.

Lemma connectServer_keeps_retrying_witness :
  let ds := [DialErr EOF; DialErr ErrClosed] in
  let w := Bench.dropped 9 in
  (connected (client w) = false /\ forallb failed ds = true) /\
  @connectServer Bench.decls ds w = Unfinished (retried 2 w).
Proof.
  intros ds w. split; [split; reflexivity|].
  exact (proj1 (@connectServer_keeps_retrying Bench.decls ds w
                  eq_refl eq_refl)).
Defined.

Lemma Start_connects_witness :
  let k := Bench.line [] [] in
  let w := Bench.idle in
  (connected (client w) = false /\
   streaming (client w) = false /\
   forallb failed [DialErr EOF] = true) /\
  @Start Bench.decls ([DialErr EOF] ++ [DialOk k]) w =
    Done (None, [])
      (mkWorld (set_started true
                  (set_ID (localAddr k)
                     (set_connected true (set_conn (Some k) (client w)))))
               (events w ++ retryEvents (server (client w)) 1
                         ++ [EvDial (server (client w))])).
Proof.
  intros k w. split; [split; [|split]; reflexivity|].
  exact (proj1 (@Start_connects Bench.decls [DialErr EOF] [] k w
                  eq_refl eq_refl eq_refl)).
Defined.

Lemma start_then_stop_witness :
  let k := Bench.line [] [] in
  let w := Probe.twoAnswers in
  (started (client w) = true /\
   conn (client w) = Some k /\
   closed k = false /\
   writes_ok 5 (writes k) = true /\
   results (client w) = [mkResult 0 []; mkResult 0 []] /\
   errorNum (mkResult 0 []) = @CmdErrOK Bench.decls) /\
  exists w1 w2,
    @ExecCommandStart Bench.decls 7 w = Done None w1 /\
    @ExecCommandStop Bench.decls w1 = Done None w2 /\
    streaming (client w2) = false /\
    GetFromStream (client w2) = 7.
Proof.
  intros k w.
  split; [split; [|split; [|split; [|split; [|split]]]]; reflexivity|].
  destruct (@start_then_stop Bench.decls 7 w k (mkResult 0 []) (mkResult 0 []) []
              eq_refl eq_refl eq_refl eq_refl eq_refl eq_refl eq_refl)
    as (w1 & w2 & k2 & H1 & _ & _ & H2 & H3 & H4 & _).
  exists w1, w2. exact (conj H1 (conj H2 (conj H3 H4))).
Defined.

Lemma frame_read_back_witness :
  let k := Bench.line [] [] in
  let w := Bench.ready k in
  (can_send w = true /\
   @IsACommand Bench.decls 4 = true /\
   conn (client w) = Some k /\
   wire k = []) /\
  exists k',
    conn (client (final (@execCommand Bench.decls 4 true 0 [7; 8; 9] w)))
      = Some k' /\
    Uint64 (wire k') = wrap64 4 /\
    Uint32 (skipn 16 (wire k')) = wrap32 3 /\
    skipn 20 (wire k') = [7; 8; 9].
Proof.
  intros k w. split; [split; [|split; [|split]]; reflexivity|].
  destruct (@frame_read_back Bench.decls 4 true 0 [7; 8; 9] w k
              eq_refl eq_refl eq_refl eq_refl)
    as (k' & H1 & H2 & _ & _ & H3 & _).
  destruct (H3 (or_introl eq_refl)) as [H4 H5].
  exists k'. exact (conj H1 (conj H2 (conj H4 H5))).
Defined.

Lemma default_callback_drains_witness :
  let es := [Bench.entry 5; Bench.entry 6] in
  let w := Bench.consumer FnPrintReceivedEntry 0 es in
  (processEntry (client w) = FnPrintReceivedEntry /\
   entries (client w) = es /\
   (length es < 3)%nat) /\
  exists w',
    getStreaming Bench.funcs 3 w = Blocked w' /\
    entries (client w') = [] /\
    nextEntry (client w') = wrap64 (Number (Bench.entry 6) + 1) /\
    delivered (events w') = delivered (events w) ++ es.
Proof.
  intros es w.
  assert (Hlt : (length es < 3)%nat) by (apply Nat.ltb_lt; reflexivity).
  split; [split; [|split]; [reflexivity | reflexivity | exact Hlt]|].
  destruct (default_callback_drains Bench.funcs es w 3 eq_refl eq_refl Hlt)
    as (w' & H1 & H2 & _ & H3 & _ & H4).
  exists w'.
  exact (conj H1 (conj H2 (conj (H3 [Bench.entry 5] (Bench.entry 6) eq_refl) H4))).
Defined.

Lemma SetProcessEntryFunc_drops_relay_witness :
  let c0 := SetProcessEntryFunc (FnUser 0) Probe.withRelay in
  let c1 := set_nextEntry 3 (set_entries [Bench.entry 3] c0) in
  (entries Probe.withRelay = [Bench.entry 2; Bench.entry 3] /\
   relayServer Probe.withRelay = Some 1%nat) /\
  getStreaming Bench.funcs 3 (mkWorld c0 []) =
    Done (OtherError 7)
         (mkWorld c1 [EvProcess (Bench.entry 2) c1 None (Some (OtherError 7))]).
Proof.
  intros c0 c1. split; [split; reflexivity|].
  exact (proj1 (SetProcessEntryFunc_drops_relay Bench.funcs 0 Probe.withRelay
                  [] (Bench.entry 2) [Bench.entry 3] 2 eq_refl)).
Defined.

Lemma resume_from_last_delivered_witness :
  let k := Bench.line [] [] in
  let w := Probe.streamingOn k [Bench.entry 5; Bench.entry 6] in
  (processEntry (client w) = FnPrintReceivedEntry /\
   entries (client w) = [Bench.entry 5] ++ [Bench.entry 6] /\
   (length ([Bench.entry 5] ++ [Bench.entry 6]) < 3)%nat /\
   streaming (client w) = true /\
   started (client w) = true /\
   closed k = false /\
   writes_ok 3 (writes k) = true) /\
  exists w1 w2 w3,
    getStreaming Bench.funcs 3 w = Blocked w1 /\
    closeConnection w1 = Done tt w2 /\
    @connectServer Bench.decls [DialOk k] w2 = Done (true, []) w3 /\
    fromStream (client w3) = wrap64 (Number (Bench.entry 6) + 1).
Proof.
  intros k w.
  assert (Hlt : (length ([Bench.entry 5] ++ [Bench.entry 6]) < 3)%nat)
    by (apply Nat.ltb_lt; reflexivity).
  split.
  { split; [reflexivity|]. split; [reflexivity|]. split; [exact Hlt|].
    split; [reflexivity|]. split; [reflexivity|]. split; reflexivity. }
  destruct (@resume_from_last_delivered Bench.decls Bench.funcs
              [Bench.entry 5] (Bench.entry 6) w 3 k []
              eq_refl eq_refl Hlt eq_refl eq_refl eq_refl eq_refl)
    as (w1 & w2 & w3 & k3 & H1 & H2 & H3 & _ & _ & H4).
  exists w1, w2, w3. exact (conj H1 (conj H2 (conj H3 H4))).
Defined.

Lemma readEntries_routes_witness :
  let k := Bench.line (2 :: Probe.dataBody 9) [] in
  let w := Probe.reading (2 :: Probe.dataBody 9) in
  let e := mkEntry 9 18 1 [42] in
  (connected (client w) = true /\
   conn (client w) = Some k /\
   closed k = false /\
   incoming k = @PtData Bench.decls :: Probe.dataFixed 9 ++ [42] ++ [] /\
   framed (@FixedSizeFileEntry Bench.decls) (Probe.dataFixed 9) [42] = true /\
   @DecodeBinaryToFileEntry Bench.decls
     (@PtData Bench.decls :: Probe.dataFixed 9 ++ [42]) = (e, None) /\
   (length (entries (client w)) < entriesBuffer)%nat) /\
  exists w',
    @readEntries_turn Bench.decls [] w = Done [] w' /\
    entries (client w') = [e].
Proof.
  intros k w e.
  assert (H4 : incoming k = @PtData Bench.decls :: Probe.dataFixed 9 ++ [42] ++ [])
    by (vm_compute; reflexivity).
  assert (H5 : framed (@FixedSizeFileEntry Bench.decls) (Probe.dataFixed 9) [42]
               = true) by (vm_compute; reflexivity).
  assert (H6 : @DecodeBinaryToFileEntry Bench.decls
                 (@PtData Bench.decls :: Probe.dataFixed 9 ++ [42]) = (e, None))
    by (vm_compute; reflexivity).
  assert (H7 : (length (entries (client w)) < entriesBuffer)%nat)
    by (apply Nat.ltb_lt; vm_compute; reflexivity).
  split.
  { exact (conj eq_refl (conj eq_refl (conj eq_refl
             (conj H4 (conj H5 (conj H6 H7)))))). }
  pose proof (proj1 (@readEntries_routes Bench.decls [] w k
                       eq_refl eq_refl eq_refl)
                (Probe.dataFixed 9) [42] [] e H4 H5 H6 H7) as H.
  eexists. split; [exact H|]. reflexivity.
Defined.


Lemma readEntries_blocks_when_full_witness :
  let k := Bench.line (2 :: Probe.dataBody 9) [] in
  let w := Probe.full in
  let e := mkEntry 9 18 1 [42] in
  (connected (client w) = true /\
   conn (client w) = Some k /\
   closed k = false /\
   incoming k = @PtData Bench.decls :: Probe.dataFixed 9 ++ [42] ++ [] /\
   framed (@FixedSizeFileEntry Bench.decls) (Probe.dataFixed 9) [42] = true /\
   @DecodeBinaryToFileEntry Bench.decls
     (@PtData Bench.decls :: Probe.dataFixed 9 ++ [42]) = (e, None) /\
   (entriesBuffer <= length (entries (client w)))%nat) /\
  exists w',
    @readEntries_turn Bench.decls [] w = Blocked w' /\
    queues (client w') = queues (client w).
Proof.
  intros k w e.
  assert (H4 : incoming k = @PtData Bench.decls :: Probe.dataFixed 9 ++ [42] ++ [])
    by (vm_compute; reflexivity).
  assert (H5 : framed (@FixedSizeFileEntry Bench.decls) (Probe.dataFixed 9) [42]
               = true) by (vm_compute; reflexivity).
  assert (H6 : @DecodeBinaryToFileEntry Bench.decls
                 (@PtData Bench.decls :: Probe.dataFixed 9 ++ [42]) = (e, None))
    by (vm_compute; reflexivity).
  assert (H7 : (entriesBuffer <= length (entries (client w)))%nat)
    by (apply Nat.leb_le; vm_compute; reflexivity).
  split.
  { exact (conj eq_refl (conj eq_refl (conj eq_refl
             (conj H4 (conj H5 (conj H6 H7)))))). }
  destruct (@readEntries_blocks_when_full Bench.decls [] w k
              (Probe.dataFixed 9) [42] [] e
              eq_refl eq_refl eq_refl H4 H5 H6 H7)
    as (w' & H8 & H9 & _).
  exists w'. exact (conj H8 H9).
Defined.

Lemma data_packet_reaches_callback_witness :
  let k := Bench.line (2 :: Probe.dataBody 9) [] in
  let w := Probe.reading (2 :: Probe.dataBody 9) in
  let e := mkEntry 9 18 1 [42] in
  (connected (client w) = true /\
   conn (client w) = Some k /\
   closed k = false /\
   incoming k = @PtData Bench.decls :: Probe.dataFixed 9 ++ [42] ++ [] /\
   framed (@FixedSizeFileEntry Bench.decls) (Probe.dataFixed 9) [42] = true /\
   @DecodeBinaryToFileEntry Bench.decls
     (@PtData Bench.decls :: Probe.dataFixed 9 ++ [42]) = (e, None) /\
   entries (client w) = [] /\
   processEntry (client w) = FnPrintReceivedEntry) /\
  exists w1 w2,
    @readEntries_turn Bench.decls [] w = Done [] w1 /\
    getStreaming Bench.funcs 2 w1 = Blocked w2 /\
    nextEntry (client w2) = wrap64 (Number e + 1).
Proof.
  intros k w e.
  assert (H4 : incoming k = @PtData Bench.decls :: Probe.dataFixed 9 ++ [42] ++ [])
    by (vm_compute; reflexivity).
  assert (H5 : framed (@FixedSizeFileEntry Bench.decls) (Probe.dataFixed 9) [42]
               = true) by (vm_compute; reflexivity).
  assert (H6 : @DecodeBinaryToFileEntry Bench.decls
                 (@PtData Bench.decls :: Probe.dataFixed 9 ++ [42]) = (e, None))
    by (vm_compute; reflexivity).
  split.
  { exact (conj eq_refl (conj eq_refl (conj eq_refl
             (conj H4 (conj H5 (conj H6 (conj eq_refl eq_refl))))))). }
  destruct (@data_packet_reaches_callback Bench.decls Bench.funcs [] w k
              (Probe.dataFixed 9) [42] [] e 0
              eq_refl eq_refl eq_refl H4 H5 H6 eq_refl eq_refl)
    as (w1 & w2 & H7 & H8 & _ & H9 & _).
  exists w1, w2. exact (conj H7 (conj H8 H9)).
Defined.

Lemma resume_result_missed_witness :
  let ds := [DialOk (Bench.line (2 :: Probe.dataBody 9 ++ Bench.resultPacket 3) [])] in
  let w := Bench.dropped 9 in
  let w1 := final (@connectServer Bench.decls ds w) in
  let k1 := Probe.resumedData 3 in
  let e := mkEntry 9 18 1 [42] in
  let rfixed := PutUint32 9 ++ PutUint32 3 in
  (@connectServer Bench.decls ds w = Done (true, []) w1 /\
   conn (client w1) = Some k1 /\
   closed k1 = false /\
   writes_ok 4 (writes k1) = true /\
   incoming k1 = @PtData Bench.decls :: Probe.dataFixed 9 ++ [42]
                   ++ (@PtResult Bench.decls :: rfixed ++ [] ++ []) /\
   framed (@FixedSizeFileEntry Bench.decls) (Probe.dataFixed 9) [42] = true /\
   @DecodeBinaryToFileEntry Bench.decls
     (@PtData Bench.decls :: Probe.dataFixed 9 ++ [42]) = (e, None) /\
   (length (entries (client w1)) < entriesBuffer)%nat /\
   framed (@FixedSizeResultEntry Bench.decls) rfixed [] = true /\
   @DecodeBinaryToResultEntry Bench.decls (@PtResult Bench.decls :: rfixed ++ [])
     = (mkResult 3 [], None) /\
   results (client w1) = [] /\
   errorNum (mkResult 3 []) <> @CmdErrOK Bench.decls) /\
  exists w2 w3 w4,
    @readEntries_turn Bench.decls ds w = Done [] w2 /\
    @readEntries_turn Bench.decls [] w2 = Done [] w3 /\
    results (client w3) = [mkResult 3 []] /\
    @ExecCommandStop Bench.decls w3 = Done (Some ErrResultCommandError) w4 /\
    streaming (client w4) = true.
Proof.
  intros ds w w1 k1 e rfixed.
  assert (H1 : @connectServer Bench.decls ds w = Done (true, []) w1)
    by (vm_compute; reflexivity).
  assert (H2 : conn (client w1) = Some k1) by (vm_compute; reflexivity).
  assert (H3 : closed k1 = false) by reflexivity.
  assert (H4 : writes_ok 4 (writes k1) = true) by reflexivity.
  assert (H5 : incoming k1 = @PtData Bench.decls :: Probe.dataFixed 9 ++ [42]
                 ++ (@PtResult Bench.decls :: rfixed ++ [] ++ []))
    by (vm_compute; reflexivity).
  assert (H6 : framed (@FixedSizeFileEntry Bench.decls) (Probe.dataFixed 9) [42]
               = true) by (vm_compute; reflexivity).
  assert (H7 : @DecodeBinaryToFileEntry Bench.decls
                 (@PtData Bench.decls :: Probe.dataFixed 9 ++ [42]) = (e, None))
    by (vm_compute; reflexivity).
  assert (H8 : (length (entries (client w1)) < entriesBuffer)%nat)
    by (apply Nat.ltb_lt; vm_compute; reflexivity).
  assert (H9 : framed (@FixedSizeResultEntry Bench.decls) rfixed [] = true)
    by (vm_compute; reflexivity).
  assert (H10 : @DecodeBinaryToResultEntry Bench.decls
                  (@PtResult Bench.decls :: rfixed ++ [])
                = (mkResult 3 [], None)) by (vm_compute; reflexivity).
  assert (H11 : results (client w1) = []) by (vm_compute; reflexivity).
  assert (H12 : errorNum (mkResult 3 []) <> @CmdErrOK Bench.decls)
    by (intros H; discriminate H).
  split.
  { exact (conj H1 (conj H2 (conj H3 (conj H4 (conj H5 (conj H6 (conj H7
             (conj H8 (conj H9 (conj H10 (conj H11 H12))))))))))). }
  destruct (@resume_result_missed Bench.decls ds [] w w1 k1
              (Probe.dataFixed 9) [42] rfixed [] [] e (mkResult 3 [])
              H1 H2 H3 H4 H5 H6 H7 H8 H9 H10 H11 H12)
    as (w2 & w3 & w4 & A1 & _ & A2 & A3 & _ & _ & A4 & A5 & _).
  exists w2, w3, w4. exact (conj A1 (conj A2 (conj A3 (conj A4 A5)))).
Defined.
